(** * Ultimate Vocal Remover GUI: the application shell of [src/app.py]

    A shallow embedding of the window, settings and translation logic of
    [app.py] and the properties its specification states about it.

    The program is PySide6 glue.  What Qt and the operating system do is
    taken from their documented behaviour and kept apart from the program:
    - [Host] gathers what the program only reads from its surroundings
      (the [QLocale] enumeration, [QUrl], the file system, the installed
      translation lookup, the primary screen);
    - [QRect], [QSettings], the stacked widget and the button group are
      small executable models of the Qt classes of the same names;
    - the methods of [Translator], [MainWindow], [SettingsWindow] and
      [CustomApplication] are then transcribed statement by statement,
      with the state they change passed in and handed back, and [Raised]
      for an exception; [handle] dispatches the events of the user to the
      handlers the [connect] calls bind them to.

    Conventions of the model:
    - a widget is named by its object name; what it shows and whether it
      is checked are entries of maps from object names;
    - the [int]s of Qt are integers without a bound;
    - [setGeometry] sets the rectangle it is given, [QTranslator.load]
      loads the file it is given, and the language buttons are checkable
      buttons outside any exclusive group;
    - the generated [ui] classes, the images and [ResourcePaths] are not
      among the sources: the widgets, pages and static texts of a window
      are part of its value; the attributes [app.py] names itself are
      taken to exist, the flag of a language button, whose name is
      computed from the button, may be missing. *)

From Stdlib Require Import ZArith Ascii.
From stdpp Require Import base decidable option list gmap strings pretty.

Local Open Scope Z_scope.
Local Open Scope string_scope.

(** ** Python values and exceptions *)

(** The exceptions the transcribed methods can raise. *)
Inductive exn : Type :=
| TypeError
| AttributeError
| IndexError.

(** Outcome of a statement sequence: it ran to its end, or raised. *)
Inductive outcome : Type :=
| Returned
| Raised (e : exn).

(** [str.lower] on the ASCII range. *)
Definition lower_ascii (c : Ascii.ascii) : Ascii.ascii :=
  let n := Ascii.nat_of_ascii c in
  if bool_decide (65 <= n <= 90)%nat then Ascii.ascii_of_nat (n + 32) else c.

Fixpoint lower (s : string) : string :=
  match s with
  | EmptyString => EmptyString
  | String c s' => String (lower_ascii c) (lower s')
  end.

(** [str.split(sep)] for a separator of one character: the pieces
    between the occurrences of [sep], at least one piece. *)
Fixpoint split_on (sep : Ascii.ascii) (s : string) : list string :=
  match s with
  | EmptyString => [EmptyString]
  | String c s' =>
    if bool_decide (c = sep) then EmptyString :: split_on sep s'
    else match split_on sep s' with
         | [] => [String c EmptyString]
         | piece :: pieces => String c piece :: pieces
         end
  end.

(** [sep in s]. *)
Fixpoint has_char (sep : Ascii.ascii) (s : string) : bool :=
  match s with
  | EmptyString => false
  | String c s' => bool_decide (c = sep) || has_char sep s'
  end.

(** ** The host: Qt and the operating system

    Nothing here is written by [app.py]. *)
Class Host : Type := {
  (** [QtCore.QLocale.Language] and its member [English] *)
  Language : Type;
  Language_eq_dec :: EqDecision Language;
  English : Language;
  (** [QtCore.QLocale.languageToString] *)
  languageToString : Language -> string;
  (** [QtCore.QUrl] and [QUrl.toLocalFile] *)
  QUrl : Type;
  toLocalFile : QUrl -> string;
  (** [QUrl.isLocalFile]: the URL is a file URL, its scheme is 'file';
      [app.py] never asks *)
  isLocalFile : QUrl -> bool;
  (** [os.path.isfile] and [os.path.join] *)
  isfile : string -> bool;
  path_join : string -> string -> string;
  (** [ResourcePaths.localizationDir] *)
  localizationDir : string;
  (** [ResourcePaths.images.flags]: the image path under each attribute
      name, [None] where [getattr] finds no such attribute *)
  images_flags : string -> option string;
  (** [QCoreApplication.translate] under the translation file that is
      installed ([None]: no translator installed), for a context and a
      source text *)
  translate : option string -> string -> string -> string;
  (** [primaryScreen().size()] *)
  screen_width : Z;
  screen_height : Z;
}.

(** ** QRect and QPoint *)

Record QPoint : Type := mkPoint { px : Z; py : Z }.

(** Qt keeps a rectangle as its two corners, both inclusive. *)
Record QRect : Type := mkRect { x1 : Z; y1 : Z; x2 : Z; y2 : Z }.

#[global] Instance QPoint_eq_dec : EqDecision QPoint.
Proof. solve_decision. Defined.

#[global] Instance QRect_eq_dec : EqDecision QRect.
Proof. solve_decision. Defined.

Definition rect_width (r : QRect) : Z := x2 r - x1 r + 1.
Definition rect_height (r : QRect) : Z := y2 r - y1 r + 1.

(** [QRect::isValid]: [x1 <= x2 && y1 <= y2]. *)
Definition rect_isValid (r : QRect) : bool :=
  bool_decide (x1 r <= x2 r) && bool_decide (y1 r <= y2 r).

(** [QRect::center], C++ integer division (towards zero). *)
Definition rect_center (r : QRect) : QPoint :=
  mkPoint ((x1 r + x2 r) ÷ 2) ((y1 r + y2 r) ÷ 2).

(** [QRect::moveCenter]. *)
Definition moveCenter (p : QPoint) (r : QRect) : QRect :=
  let w := x2 r - x1 r in
  let h := y2 r - y1 r in
  let nx1 := px p - w ÷ 2 in
  let ny1 := py p - h ÷ 2 in
  mkRect nx1 ny1 (nx1 + w) (ny1 + h).

(** ** QSettings *)

(** The values [app.py] stores. *)
Inductive QVariant : Type :=
| VRect (r : QRect)
| VStringList (l : list string).

#[global] Instance QVariant_eq_dec : EqDecision QVariant.
Proof. solve_decision. Defined.

(** A settings object: the stack of open groups (innermost first), the
    values written since the last [sync], and the permanent storage. *)
Record QSettings : Type := mkSettings {
  group : list string;
  staged : gmap string QVariant;
  stored : gmap string QVariant;
}.

(** The prefix put before a key: the open groups, outermost first, each
    followed by a slash. *)
Fixpoint group_prefix (g : list string) : string :=
  match g with
  | [] => ""
  | name :: outer => group_prefix outer +:+ name +:+ "/"
  end.

Definition actual_key (s : QSettings) (key : string) : string :=
  group_prefix (group s) +:+ key.

Definition beginGroup (prefix : string) (s : QSettings) : QSettings :=
  mkSettings (prefix :: group s) (staged s) (stored s).

(** [endGroup] with no open group only warns. *)
Definition endGroup (s : QSettings) : QSettings :=
  mkSettings (tail (group s)) (staged s) (stored s).

(** What is stored under an absolute key, unsynced writes first. *)
Definition lookup_key (s : QSettings) (k : string) : option QVariant :=
  match staged s !! k with
  | Some v => Some v
  | None => stored s !! k
  end.

(** [QSettings.value(key, default)]. *)
Definition value (key : string) (default : QVariant) (s : QSettings) : QVariant :=
  match lookup_key s (actual_key s key) with
  | Some v => v
  | None => default
  end.

Definition setValue (key : string) (v : QVariant) (s : QSettings) : QSettings :=
  mkSettings (group s) (<[actual_key s key := v]> (staged s)) (stored s).

(** [sync] writes the unsaved changes to permanent storage. *)
Definition sync (s : QSettings) : QSettings :=
  mkSettings (group s) ∅ (staged s ∪ stored s).

(** [QtCore.QSettings('UVR', 'Ultimate Vocal Remover')] in a new process:
    no group is open and nothing is unsaved. *)
Definition QSettings_open (disk : gmap string QVariant) : QSettings :=
  mkSettings [] ∅ disk.

(** What a later process finds. *)
Definition disk_of (s : QSettings) : gmap string QVariant := stored s.

(** The point both [load_settings] methods compute: half the width and
    half the height of the primary screen. *)
Definition screen_centre `{Host} : QPoint :=
  mkPoint (screen_width ÷ 2) (screen_height ÷ 2).

(** ** Events and widgets *)

(** [QDropEvent] (and its subclass [QDragEnterEvent]): the URLs of its
    mime data and the accepted flag that [accept] and [ignore] set. *)
Record QDropEvent `{Host} : Type := mkEvent {
  urls : list QUrl;
  isAccepted : bool;
}.

Definition accept `{Host} (event : QDropEvent) : QDropEvent :=
  mkEvent _ (urls event) true.

Definition ignore `{Host} (event : QDropEvent) : QDropEvent :=
  mkEvent _ (urls event) false.

(** The event [closeEvent] receives: only its accepted flag matters. *)
Record QCloseEvent : Type := mkCloseEvent { close_isAccepted : bool }.

Definition close_accept (event : QCloseEvent) : QCloseEvent := mkCloseEvent true.

(** Modelled from the spec: [Ui_MainWindow.retranslateUi] and
    [Ui_SettingsWindow.retranslateUi], generated into [windows/] and not
    among the sources.  The spec has a window, on a translation broadcast,
    re-apply all static text of its widgets: [static] lists the widgets
    that have static text, by object name, each with its source text, and
    every one of them is set to the translation of its source text. *)
Definition retranslateUi `{Host} (context : string)
    (static : list (string * string)) (pack : option string)
    (text : gmap string string) : gmap string string :=
  foldl (fun shown ws => <[ws.1 := translate pack context ws.2]> shown) text static.

(** [QStackedWidget.setCurrentIndex]: an index with no page is refused. *)
Definition stacked_setCurrentIndex {A} (pages : list A) (index current : Z) : Z :=
  if bool_decide (0 <= index < Z.of_nat (length pages)) then index else current.

(** [QStackedWidget.currentWidget]. *)
Definition stacked_currentWidget {A} (pages : list A) (current : Z) : option A :=
  if bool_decide (0 <= current) then pages !! Z.to_nat current else None.

(** [QButtonGroup.button(id)]: the first button added under [id]. *)
Fixpoint group_button (buttons : list (Z * string)) (id : Z) : option string :=
  match buttons with
  | [] => None
  | (i, name) :: rest => if bool_decide (i = id) then Some name else group_button rest id
  end.

(** [setChecked(True)] on a member of an exclusive button group: the
    member is checked and every other member is unchecked. *)
Definition group_check (buttons : list (Z * string)) (name : string)
    (checked : gmap string bool) : gmap string bool :=
  <[name := true]> (foldl (fun c b => <[b.2 := false]> c) checked buttons).

(** ** MainWindow *)

Module MainWindow.

(** The window: its geometry, the text each widget shows (by object
    name), and the static texts of its generated [ui]. *)
Record t : Type := mk {
  geometry : QRect;
  text : gmap string string;
  static_text : list (string * string);
}.

Definition setGeometry (r : QRect) (self : t) : t :=
  mk r (text self) (static_text self).

Definition setText (widget s : string) (self : t) : t :=
  mk (geometry self) (<[widget := s]> (text self)) (static_text self).

Section methods.
Context `{Host}.

Definition label_musicFiles_dragEnterEvent (event : QDropEvent) : QDropEvent :=
  match urls event with
  | _ :: _ => accept event
  | [] => ignore event
  end.

Definition label_musicFiles_dropEvent (event : QDropEvent)
    (settings : QSettings) (self : t) : QSettings * t :=
  let input_paths :=
    foldl (fun (input_paths : list string) url => (input_paths ++ [toLocalFile url])%list)
      [] (urls event) in
  let settings := setValue "seperation/input_paths" (VStringList input_paths) settings in
  (settings,
   setText "label_musicFiles"
     ("Total Music File/s: " +:+ pretty (length input_paths)) self).

(** [width() / 2] is a float; [QPoint.setX] takes an [int] and the
    binding truncates the float, so the coordinate is the quotient. *)
Definition load_settings (settings : QSettings) (self : t) : QSettings * t * outcome :=
  let default_geometry := geometry self in
  let point := mkPoint 0 0 in
  let point := mkPoint (screen_width ÷ 2) (py point) in
  let point := mkPoint (px point) (screen_height ÷ 2) in
  let default_geometry := moveCenter point default_geometry in
  let settings := beginGroup "mainwindow" settings in
  let geometry := value "geometry" (VRect default_geometry) settings in
  let settings := endGroup settings in
  match geometry with
  | VRect r => (settings, setGeometry r self, Returned)
  | VStringList _ => (settings, self, Raised TypeError)
  end.

Definition save_settings (settings : QSettings) (self : t) : QSettings :=
  let settings := beginGroup "mainwindow" settings in
  let settings := setValue "geometry" (VRect (geometry self)) settings in
  let settings := endGroup settings in
  sync settings.

Definition closeEvent (event : QCloseEvent) (settings : QSettings) (self : t)
    : QSettings * QCloseEvent :=
  let settings := save_settings settings self in
  (settings, close_accept event).

(** [pack] is the translation file installed when the call is made. *)
Definition update_translation (pack : option string) (self : t) : t :=
  mk (geometry self)
     (retranslateUi "MainWindow" (static_text self) pack (text self))
     (static_text self).

(** [setup_widgets] overrides two event handlers of the label, connects
    the settings button and loads its icon: nothing of the window value
    changes. *)
Definition setup_widgets (self : t) : t := self.

(** [__init__], on the window as [setupUi] built it. *)
Definition __init__ (settings : QSettings) (self : t) : QSettings * t * outcome :=
  let self := setup_widgets self in
  load_settings settings self.

End methods.
End MainWindow.

(** Qt's delivery of a drag that is released over the label: the drop
    event reaches the widget only when its drag-enter handler accepted
    the drag. *)
Definition drag_and_drop `{Host} (event : QDropEvent) (settings : QSettings)
    (self : MainWindow.t) : QSettings * MainWindow.t :=
  if isAccepted (MainWindow.label_musicFiles_dragEnterEvent event)
  then MainWindow.label_musicFiles_dropEvent event settings self
  else (settings, self).


(** ** SettingsWindow *)

(** How the flag loop of [SettingsWindow.setup_widgets] ends: all flags
    loaded; [IndexError] at a button whose object name has no second
    piece; [AttributeError] at a button whose language has no attribute
    in [ResourcePaths.images.flags]. *)
Inductive flags_outcome : Type :=
| FlagsLoaded
| FlagIndexError (button : string)
| FlagAttributeError (button language : string).

Module SettingsWindow.

(** The window: geometry, texts and static texts as in [MainWindow];
    the checked state of its buttons (by object name); the push buttons
    found in [ui.frame_languages]; [self.menu_group] as pairs of an id and
    a radio button; the pages of [ui.stackedWidget_11], each with its
    [minimumFrameWidth] property when it has one; the current page index
    and the minimum width of that stacked widget. *)
Record t : Type := mk {
  geometry : QRect;
  text : gmap string string;
  static_text : list (string * string);
  checked : gmap string bool;
  frame_languages : list string;
  menu_group : list (Z * string);
  pages : list (option Z);
  currentIndex : Z;
  minimumWidth : Z;
}.

Definition setGeometry (r : QRect) (self : t) : t :=
  mk r (text self) (static_text self) (checked self) (frame_languages self)
     (menu_group self) (pages self) (currentIndex self) (minimumWidth self).

Definition with_text (shown : gmap string string) (self : t) : t :=
  mk (geometry self) shown (static_text self) (checked self) (frame_languages self)
     (menu_group self) (pages self) (currentIndex self) (minimumWidth self).

Definition setText (widget s : string) (self : t) : t :=
  with_text (<[widget := s]> (text self)) self.

Definition with_checked (c : gmap string bool) (self : t) : t :=
  mk (geometry self) (text self) (static_text self) c (frame_languages self)
     (menu_group self) (pages self) (currentIndex self) (minimumWidth self).

(** [setChecked] on a push button of the language frame (checkable, in
    no exclusive group). *)
Definition setChecked (button : string) (b : bool) (self : t) : t :=
  with_checked (<[button := b]> (checked self)) self.

Definition with_menu_group (g : list (Z * string)) (self : t) : t :=
  mk (geometry self) (text self) (static_text self) (checked self) (frame_languages self)
     g (pages self) (currentIndex self) (minimumWidth self).

(** [QButtonGroup.addButton(button, id)]. *)
Definition addButton (button : string) (id : Z) (self : t) : t :=
  with_menu_group (menu_group self ++ [(id, button)])%list self.

Definition setCurrentIndex (index : Z) (self : t) : t :=
  mk (geometry self) (text self) (static_text self) (checked self) (frame_languages self)
     (menu_group self) (pages self)
     (stacked_setCurrentIndex (pages self) index (currentIndex self)) (minimumWidth self).

(** [QWidget.setMinimumWidth]: Qt reads [QWIDGETSIZE_MAX] (16777215)
    itself as no minimum and stores 0; a larger width is stored as
    [QWIDGETSIZE_MAX] and a negative one as 0, each with a warning. *)
Definition setMinimumWidth (w : Z) (self : t) : t :=
  mk (geometry self) (text self) (static_text self) (checked self) (frame_languages self)
     (menu_group self) (pages self) (currentIndex self)
     (if bool_decide (w = 16777215) then 0 else Z.max 0 (Z.min w 16777215)).

Section methods.
Context `{Host}.

Definition menu_loadPage (index : Z) (self : t) : t * outcome :=
  (* Load Page *)
  let self := setCurrentIndex index self in
  (* Check Radiobutton *)
  match group_button (menu_group self) index with
  | None => (self, Raised AttributeError)
  | Some button =>
    let self := with_checked (group_check (menu_group self) button (checked self)) self in
    (* Find Frame which specifies the minimum width *)
    match stacked_currentWidget (pages self) (currentIndex self) with
    | None => (self, Raised AttributeError)
    | Some page =>
      match page with
      | None => (self, Raised TypeError)
      | Some min_width => (setMinimumWidth min_width self, Returned)
      end
    end
  end.

(** What [setup_widgets] leaves in the window state when its flag loop
    raises nothing ([setup_widgets_or_raise] below has the exceptions):
    the language buttons lose their text (their icons, and the icon of the
    export button, are images and not part of the state), and the menu
    group is built. *)
Definition setup_widgets (self : t) : t :=
  let self := foldl (fun self button => setText button "" self) self (frame_languages self) in
  let self := with_menu_group [] self in
  let self := addButton "radioButton_seperationSettings" 0 self in
  let self := addButton "radioButton_shortcuts" 1 self in
  let self := addButton "radioButton_customization" 2 self in
  let self := addButton "radioButton_preferences" 3 self in
  self.

(** [QButtonGroup.id(button)]: [-1] for a button outside the group. *)
Fixpoint group_id (buttons : list (Z * string)) (button : string) : Z :=
  match buttons with
  | [] => -1
  | (i, name) :: rest => if bool_decide (name = button) then i else group_id rest button
  end.

(** A click on a radio button of the menu: Qt checks the button, then
    [buttonClicked] runs the connected lambda. *)
Definition menu_group_buttonClicked (btn : string) (self : t) : t * outcome :=
  let self := with_checked (group_check (menu_group self) btn (checked self)) self in
  menu_loadPage (group_id (menu_group self) btn) self.

Definition load_settings (settings : QSettings) (self : t) : QSettings * t * outcome :=
  let default_geometry := geometry self in
  let point := mkPoint 0 0 in
  let point := mkPoint (screen_width ÷ 2) (py point) in
  let point := mkPoint (px point) (screen_height ÷ 2) in
  let default_geometry := moveCenter point default_geometry in
  let settings := beginGroup "settingswindow" settings in
  let geometry := value "geometry" (VRect default_geometry) settings in
  let settings := endGroup settings in
  match geometry with
  | VRect r => (settings, setGeometry r self, Returned)
  | VStringList _ => (settings, self, Raised TypeError)
  end.

Definition save_settings (settings : QSettings) (self : t) : QSettings :=
  let settings := beginGroup "settingswindow" settings in
  let settings := setValue "geometry" (VRect (geometry self)) settings in
  let settings := endGroup settings in
  sync settings.

Definition closeEvent (event : QCloseEvent) (settings : QSettings) (self : t)
    : QSettings * QCloseEvent :=
  let settings := save_settings settings self in
  (settings, close_accept event).

Definition update_translation (pack : option string) (self : t) : t :=
  with_text (retranslateUi "SettingsWindow" (static_text self) pack (text self)) self.

(** [button.objectName().split('_')[1]]; [None] is the [IndexError]. *)
Definition flag_language (objectName : string) : option string :=
  split_on "_"%char objectName !! 1%nat.

(** The flag loop of [setup_widgets] with its exceptions.  [flags] is
    [ResourcePaths.images.flags]: the image path under each attribute
    name.  Scaling and painting the pixmap change nothing of the window
    value. *)
Fixpoint setup_flags (flags : string -> option string) (buttons : list string)
    (self : t) : t * flags_outcome :=
  match buttons with
  | [] => (self, FlagsLoaded)
  | button :: rest =>
    match flag_language button with
    | None => (self, FlagIndexError button)
    | Some language =>
      let self := setText button "" self in
      match flags language with
      | None => (self, FlagAttributeError button language)
      | Some img_path => setup_flags flags rest self
      end
    end
  end.

(** [setup_widgets] with the exceptions of its flag loop. *)
Definition setup_widgets_or_raise (flags : string -> option string) (self : t)
    : t * flags_outcome :=
  match setup_flags flags (frame_languages self) self with
  | (self, FlagsLoaded) =>
    let self := with_menu_group [] self in
    let self := addButton "radioButton_seperationSettings" 0 self in
    let self := addButton "radioButton_shortcuts" 1 self in
    let self := addButton "radioButton_customization" 2 self in
    let self := addButton "radioButton_preferences" 3 self in
    (self, FlagsLoaded)
  | (self, raised) => (self, raised)
  end.

(** [__init__], on the window as [setupUi] built it: [setup_widgets]
    with the flags of [ResourcePaths], whose exception ends the
    constructor, then [load_settings] and the first page. *)
Definition __init__ (settings : QSettings) (self : t) : QSettings * t * outcome :=
  match setup_widgets_or_raise images_flags self with
  | (self, FlagIndexError _) => (settings, self, Raised IndexError)
  | (self, FlagAttributeError _ _) => (settings, self, Raised AttributeError)
  | (self, FlagsLoaded) =>
    match load_settings settings self with
    | (settings, self, Raised e) => (settings, self, Raised e)
    | (settings, self, Returned) =>
      let '(self, o) := menu_loadPage 0 self in
      (settings, self, o)
    end
  end.

End methods.
End SettingsWindow.

(** A button the flag loop gets past: its name has a second piece and
    the flags have an image under it. *)
Definition has_flag (flags : string -> option string) (button : string) : Prop :=
  ∃ language img_path,
    SettingsWindow.flag_language button = Some language ∧ flags language = Some img_path.

(** The checked button of the menu names the page shown: a button of
    the menu group is checked exactly when its id is the current index of
    the stacked widget. *)
Definition menu_matches_page (w : SettingsWindow.t) : Prop :=
  ∀ id button,
    (id, button) ∈ SettingsWindow.menu_group w →
    SettingsWindow.checked w !! button
    = Some (bool_decide (id = SettingsWindow.currentIndex w)).

(** The window after a sequence of clicks on menu buttons.  An exception
    raised in the connected lambda is reported by the event loop and the
    window stays as the lambda left it. *)
Fixpoint menu_clicks (clicked : list string) (w : SettingsWindow.t) : SettingsWindow.t :=
  match clicked with
  | [] => w
  | btn :: rest => menu_clicks rest (SettingsWindow.menu_group_buttonClicked btn w).1
  end.

(** ** CustomApplication and Translator *)

(** [app.windows], a dictionary with the keys ['main'] and ['settings'],
    in this order. *)
Record Windows : Type := mkWindows {
  main : MainWindow.t;
  settings_window : SettingsWindow.t;
}.

(** The application object: [app.settings]; the file loaded into
    [app.translator._translator] and whether that translator is installed
    in the application; [app.windows], [None] as long as [__init__] has
    not assigned the attribute. *)
Record CustomApplication : Type := mkApp {
  settings : QSettings;
  qm_file : option string;
  installed : bool;
  windows : option Windows;
}.

(** The translation file [QCoreApplication.translate] consults. *)
Definition active_pack (app : CustomApplication) : option string :=
  if installed app then qm_file app else None.

Definition removeTranslator (app : CustomApplication) : CustomApplication :=
  mkApp (settings app) (qm_file app) false (windows app).

Definition installTranslator (app : CustomApplication) : CustomApplication :=
  mkApp (settings app) (qm_file app) true (windows app).

(** [QTranslator.load] replaces what the translator held. *)
Definition translator_load (path : string) (app : CustomApplication) : CustomApplication :=
  mkApp (settings app) (Some path) (installed app) (windows app).

Definition with_windows (ws : Windows) (app : CustomApplication) : CustomApplication :=
  mkApp (settings app) (qm_file app) (installed app) (Some ws).

Module Translator.
Section methods.
Context `{Host}.

(** The name of the translation file of a language, as [load_language]
    builds it. *)
Definition translation_path (language : Language) : string :=
  let language_str := lower (languageToString language) in
  path_join localizationDir (language_str +:+ ".qm").

(** The statements of [load_language] after its [if]/[else]: the
    translation of every window is updated, then the language buttons
    are checked or unchecked. *)
Definition update_windows (language : Language) (app : CustomApplication)
    : CustomApplication :=
  match windows app with
  | None => app
  | Some ws =>
    (* Update translation on all windows *)
    let ws :=
      mkWindows (MainWindow.update_translation (active_pack app) (main ws))
                (settings_window ws) in
    let ws :=
      mkWindows (main ws)
                (SettingsWindow.update_translation (active_pack app) (settings_window ws)) in
    (* Update checked language buttons *)
    let sw :=
      foldl (fun sw button =>
               let language_str := lower (languageToString language) in
               let button_name := "pushButton_" +:+ language_str in
               if bool_decide (button = button_name)
               then SettingsWindow.setChecked button true sw
               else SettingsWindow.setChecked button false sw)
            (settings_window ws)
            (SettingsWindow.frame_languages (settings_window ws)) in
    with_windows (mkWindows (main ws) sw) app
  end.

(** [load_language]; [fuel] bounds the depth of nested calls, and [None]
    means that the bound was reached. *)
Fixpoint load_language (fuel : nat) (language : Language) (app : CustomApplication)
    : option CustomApplication :=
  match fuel with
  | O => None
  | S fuel =>
    if bool_decide (language = English) then
      (* Language is either not specified or english *)
      let app := removeTranslator app in
      Some (update_windows language app)
    else
      (* Language was specified *)
      let translation_path := translation_path language in
      if negb (isfile translation_path) then
        (* Translation does not exist: load default language (english) *)
        load_language fuel English app
      else
        (* Load language *)
        let app := translator_load translation_path app in
        let app := installTranslator app in
        Some (update_windows language app)
  end.

(** The language in force once [load_language language] has returned:
    the language asked for when it is English or has its translation
    file, English otherwise. *)
Definition active_language (language : Language) : Language :=
  if bool_decide (language = English) then English
  else if isfile (translation_path language) then language
  else English.

(** The object name [load_language] compares the language buttons with. *)
Definition button_name (language : Language) : string :=
  "pushButton_" +:+ lower (languageToString language).

(** A call of [load_language] from outside: a first call and the one
    call it may nest. *)
Definition load_language_call (language : Language) (app : CustomApplication)
    : CustomApplication :=
  default app (load_language 2 language app).

(** [__init__]: a new translator, neither loaded nor installed, then
    [load_language] of what the settings hold under 'language', English
    when they hold nothing.  The settings of this model hold rectangles
    and lists only, so a value found there is no language: it differs
    from [English] and [QLocale.languageToString] refuses it. *)
Definition __init__ (app : CustomApplication) : CustomApplication * outcome :=
  let app := mkApp (settings app) None false (windows app) in
  match lookup_key (settings app) (actual_key (settings app) "language") with
  | None => (load_language_call English app, Returned)
  | Some _ => (app, Raised TypeError)
  end.

End methods.
End Translator.

(** ** The running application *)

(** The application with the widgets the methods across windows touch:
    the paragraphs of [main.ui.textBrowser_command], the visibility set on
    [settings.ui.pushButton_clearCommand], and whether each window is
    shown. *)
Record Shell : Type := mkShell {
  shell_app : CustomApplication;
  command : list string;
  clearCommand_visible : bool;
  main_visible : bool;
  settings_visible : bool;
}.

Definition with_app (a : CustomApplication) (sh : Shell) : Shell :=
  mkShell a (command sh) (clearCommand_visible sh) (main_visible sh) (settings_visible sh).

Definition with_command (c : list string) (sh : Shell) : Shell :=
  mkShell (shell_app sh) c (clearCommand_visible sh) (main_visible sh) (settings_visible sh).

Definition clearCommand_setVisible (b : bool) (sh : Shell) : Shell :=
  mkShell (shell_app sh) (command sh) b (main_visible sh) (settings_visible sh).

Definition main_setVisible (b : bool) (sh : Shell) : Shell :=
  mkShell (shell_app sh) (command sh) (clearCommand_visible sh) b (settings_visible sh).

Definition settings_setVisible (b : bool) (sh : Shell) : Shell :=
  mkShell (shell_app sh) (command sh) (clearCommand_visible sh) (main_visible sh) b.

Definition with_settings (s : QSettings) (sh : Shell) : Shell :=
  with_app (mkApp s (qm_file (shell_app sh)) (installed (shell_app sh))
              (windows (shell_app sh))) sh.

(** [MainWindow.write_to_command]. *)
Definition MainWindow_write_to_command (text : string) (sh : Shell) : Shell :=
  let sh := with_command (command sh ++ [text])%list sh in
  match windows (shell_app sh) with
  | Some _ => clearCommand_setVisible true sh
  | None => sh
  end.

(** [MainWindow.pushButton_settings_clicked]: without [app.windows] the
    first statement raises. *)
Definition MainWindow_pushButton_settings_clicked (sh : Shell) : Shell * outcome :=
  match windows (shell_app sh) with
  | None => (sh, Raised AttributeError)
  | Some _ => (settings_setVisible true sh, Returned)
  end.

(** [SettingsWindow.pushButton_clearCommand_clicked]. *)
Definition SettingsWindow_pushButton_clearCommand_clicked (sh : Shell) : Shell * outcome :=
  match windows (shell_app sh) with
  | None => (sh, Raised AttributeError)
  | Some _ =>
    let sh := with_command [] sh in
    (clearCommand_setVisible false sh, Returned)
  end.

(** The lambda [CustomApplication.setup_late_widgets] connects to the
    export button. *)
Definition pushButton_exportDirectory_clicked (sh : Shell) : Shell * outcome :=
  match windows (shell_app sh) with
  | None => (sh, Raised AttributeError)
  | Some _ => (MainWindow_write_to_command "AYAAYAYA" sh, Returned)
  end.

(** What [setupUi] of both windows builds, before any method of [app.py]
    runs. *)
Record Built : Type := mkBuilt {
  built_main : MainWindow.t;
  built_settings : SettingsWindow.t;
  built_command : list string;
  built_clearCommand_visible : bool;
}.

Module CustomApplication.
Section methods.
Context `{Host}.

(** [__init__] on the stored settings [disk]: the managers, the two
    windows, then the main window is shown.  An exception of a
    constructor ends it. *)
Definition __init__ (disk : gmap string QVariant) (ui : Built) : Shell * outcome :=
  (* -Create Managers- *)
  let app := mkApp (QSettings_open disk) None false None in
  let sh := mkShell app (built_command ui) (built_clearCommand_visible ui) false false in
  match Translator.__init__ app with
  | (app, Raised e) => (with_app app sh, Raised e)
  | (app, Returned) =>
    let sh := with_app app sh in
    (* -Load Windows- *)
    match MainWindow.__init__ (settings app) (built_main ui) with
    | (s, _, Raised e) => (with_settings s sh, Raised e)
    | (s, main_window, Returned) =>
      let sh := with_settings s sh in
      match SettingsWindow.__init__ s (built_settings ui) with
      | (s, _, Raised e) => (with_settings s sh, Raised e)
      | (s, settings_window, Returned) =>
        let sh := with_settings s sh in
        let sh := with_app (with_windows (mkWindows main_window settings_window)
                              (shell_app sh)) sh in
        (* setup_late_widgets connects the export button *)
        (main_setVisible true sh, Returned)
      end
    end
  end.

End methods.
End CustomApplication.

(** ** Events *)

(** What the user does to the running application, by the widget acted
    on: a drag released over the music label, a click on the settings
    button, on the menu radio button of an id, on a push button of the
    language frame, on the export button, on the clear button, a window
    moved or resized, a window closed. *)
Inductive Event `{Host} : Type :=
| DragDrop (dragged : list QUrl)
| SettingsButton
| MenuButton (id : Z)
| LanguageButton (button : string)
| ExportButton
| ClearCommandButton
| MoveMain (r : QRect)
| MoveSettings (r : QRect)
| CloseMain
| CloseSettings.

(** The handler connected to a button, if any. *)
Fixpoint connected {A} (connections : list (string * A)) (button : string) : option A :=
  match connections with
  | [] => None
  | (b, a) :: rest => if bool_decide (b = button) then Some a else connected rest button
  end.

(** A click toggles a checkable button before its [clicked] signal. *)
Definition toggle (button : string) (sw : SettingsWindow.t) : SettingsWindow.t :=
  SettingsWindow.setChecked button
    (negb (default false (SettingsWindow.checked sw !! button))) sw.

(** The geometry [load_settings] finds under an absolute key, or its
    default. *)
Definition stored_geometry (disk : gmap string QVariant) (key : string) (d : QRect) : QRect :=
  match disk !! key with
  | Some (VRect r) => r
  | _ => d
  end.

(** What holds of the settings window between two events: the checked
    menu button names the page shown; the menu group is the one
    [setup_widgets] builds; its four pages exist; and no push button of
    the language frame is a button of the menu. *)
Definition settings_window_invariant (sw : SettingsWindow.t) : Prop :=
  menu_matches_page sw
  ∧ SettingsWindow.menu_group sw
    = SettingsWindow.menu_group (SettingsWindow.setup_widgets sw)
  ∧ (4 <= length (SettingsWindow.pages sw))%nat
  ∧ (∀ button, button ∈ SettingsWindow.frame_languages sw →
               button ∉ (SettingsWindow.menu_group sw).*2).

(** What holds of the running application between two events: both
    windows are registered; no settings group is open; nothing is stored
    under 'language'; the settings window keeps its invariant; and a
    command line that is not empty can be cleared. *)
Definition shell_invariant (sh : Shell) : Prop :=
  ∃ ws,
    windows (shell_app sh) = Some ws
    ∧ group (settings (shell_app sh)) = []
    ∧ lookup_key (settings (shell_app sh)) "language" = None
    ∧ settings_window_invariant (settings_window ws)
    ∧ (command sh ≠ [] → clearCommand_visible sh = true).

Section events.
Context `{Host}.
(** [QLocale.German], [QLocale.Japanese] and [QLocale.Filipino]. *)
Variables German Japanese Filipino : Language.

(** The four connections of the flag buttons in
    [SettingsWindow.setup_widgets]. *)
Definition language_connections : list (string * Language) :=
  [("pushButton_english", English); ("pushButton_german", German);
   ("pushButton_japanese", Japanese); ("pushButton_filipino", Filipino)].

(** One event of the event loop.  An exception raised in a handler is
    reported and the application stays as the handler left it; before
    [app.windows] exists there is no widget to act on.  A click reaches
    the radio button registered under [id], or the language button of
    that name, if there is one. *)
Definition handle (e : Event) (sh : Shell) : Shell :=
  match windows (shell_app sh) with
  | None => sh
  | Some ws =>
    let app := shell_app sh in
    match e with
    | DragDrop dragged =>
      let '(s, w) := drag_and_drop (mkEvent _ dragged false) (settings app) (main ws) in
      with_app (with_windows (mkWindows w (settings_window ws))
                  (mkApp s (qm_file app) (installed app) (windows app))) sh
    | SettingsButton => (MainWindow_pushButton_settings_clicked sh).1
    | MenuButton id =>
      match group_button (SettingsWindow.menu_group (settings_window ws)) id with
      | None => sh
      | Some btn =>
        let sw := (SettingsWindow.menu_group_buttonClicked btn (settings_window ws)).1 in
        with_app (with_windows (mkWindows (main ws) sw) app) sh
      end
    | LanguageButton button =>
      match connected language_connections button with
      | None => sh
      | Some language =>
        let app :=
          with_windows (mkWindows (main ws) (toggle button (settings_window ws))) app in
        with_app (Translator.load_language_call language app) sh
      end
    | ExportButton => (pushButton_exportDirectory_clicked sh).1
    | ClearCommandButton => (SettingsWindow_pushButton_clearCommand_clicked sh).1
    | MoveMain r =>
      with_app (with_windows (mkWindows (MainWindow.setGeometry r (main ws))
                                (settings_window ws)) app) sh
    | MoveSettings r =>
      with_app (with_windows (mkWindows (main ws)
                                (SettingsWindow.setGeometry r (settings_window ws))) app) sh
    | CloseMain =>
      let '(s, event) := MainWindow.closeEvent (mkCloseEvent true) (settings app) (main ws) in
      let sh := with_settings s sh in
      if close_isAccepted event then main_setVisible false sh else sh
    | CloseSettings =>
      let '(s, event) :=
        SettingsWindow.closeEvent (mkCloseEvent true) (settings app) (settings_window ws) in
      let sh := with_settings s sh in
      if close_isAccepted event then settings_setVisible false sh else sh
    end
  end.

(** The application after a sequence of events. *)
Definition run_events (events : list Event) (sh : Shell) : Shell :=
  foldl (fun sh e => handle e sh) sh events.

End events.

(** ** A host to run the definitions on *)

Inductive DemoLanguage : Type := DEnglish | DGerman | DJapanese | DFilipino.

#[global] Instance DemoLanguage_eq_dec : EqDecision DemoLanguage.
Proof. solve_decision. Defined.

(** The flag images at hand. *)
Definition demo_flags (language : string) : option string :=
  if bool_decide (language ∈ ["english"; "german"; "japanese"; "filipino"])
  then Some ("resources/images/flags/" +:+ language +:+ ".png")
  else None.

(** German is shipped, Japanese and Filipino are not; the screen is
    1367 by 768; a translated text is marked with its file. *)
#[global] Instance demo_host : Host := {
  Language := DemoLanguage;
  Language_eq_dec := DemoLanguage_eq_dec;
  English := DEnglish;
  languageToString l :=
    match l with
    | DEnglish => "English" | DGerman => "German"
    | DJapanese => "Japanese" | DFilipino => "Filipino"
    end;
  QUrl := string;
  toLocalFile u := if String.prefix "file://" u then String.substring 7 (String.length u - 7) u else "";
  isLocalFile u := String.prefix "file://" u;
  isfile p := bool_decide (p = "resources/localization/german.qm");
  path_join a b := a +:+ "/" +:+ b;
  localizationDir := "resources/localization";
  images_flags := demo_flags;
  translate pack context source :=
    match pack with
    | None => source
    | Some f => f +:+ ":" +:+ source
    end;
  screen_width := 1367;
  screen_height := 768;
}.

(** A main window and a settings window as [setupUi] could build them. *)
Definition demo_main : MainWindow.t :=
  MainWindow.mk (mkRect 0 0 639 479) ∅
    [("MainWindow", "Ultimate Vocal Remover"); ("label_musicFiles", "Drop your music here")].

Definition demo_settings_window : SettingsWindow.t :=
  SettingsWindow.mk (mkRect 0 0 799 599) ∅
    [("SettingsWindow", "Settings"); ("radioButton_shortcuts", "Shortcuts")]
    ∅
    ["pushButton_english"; "pushButton_german"; "pushButton_japanese"; "pushButton_filipino"]
    []
    [Some 0; Some 400; Some 500; Some 600]
    0 0.


(** The application once both windows are registered, nothing stored
    and no translator installed. *)
Definition demo_app : CustomApplication :=
  mkApp (QSettings_open ∅) None false (Some (mkWindows demo_main demo_settings_window)).

(** What [setupUi] builds on the demonstration host, the command line
    empty. *)
Definition demo_built : Built := mkBuilt demo_main demo_settings_window [] false.

(** The demonstration application with both windows registered and the
    main window shown. *)
Definition demo_running : Shell := mkShell demo_app [] false true false.

(** The demonstration application when its event loop starts. *)
Definition demo_shell : Shell := (CustomApplication.__init__ ∅ demo_built).1.

(** Settings in which the geometry key of the main window holds a list. *)
Definition demo_bad_settings : QSettings :=
  setValue "mainwindow/geometry" (VStringList ["800x600"]) (QSettings_open ∅).

(** * Properties *)

(** ** The settings store *)

Lemma endGroup_beginGroup (prefix : string) (s : QSettings) :
  endGroup (beginGroup prefix s) = s.
Proof. by destruct s. Qed.


Lemma lookup_key_setValue_ne (key k : string) (v : QVariant) (s : QSettings) :
  k ≠ actual_key s key → lookup_key (setValue key v s) k = lookup_key s k.
Proof.
  intros Hne. unfold lookup_key, setValue; simpl.
  by rewrite lookup_insert_ne.
Qed.

Lemma lookup_key_sync (s : QSettings) (k : string) :
  lookup_key (sync s) k = lookup_key s k.
Proof.
  unfold lookup_key, sync; simpl.
  rewrite lookup_empty, lookup_union.
  destruct (staged s !! k) as [v|] eqn:Hs; simpl.
  - by destruct (stored s !! k).
  - by destruct (stored s !! k).
Qed.

(** After [sync], a new process reads what this one reads. *)
Lemma lookup_key_reopen (s : QSettings) (k : string) :
  lookup_key (QSettings_open (disk_of (sync s))) k = lookup_key s k.
Proof.
  rewrite <- (lookup_key_sync s k).
  unfold lookup_key, QSettings_open, disk_of; simpl.
  by rewrite lookup_empty.
Qed.

(** ** Dropped files *)

Section drop.
Context `{Host}.

(** The loop of [label_musicFiles_dropEvent] collects the local file of
    every URL, in order, behind what was collected before. *)
Lemma input_paths_loop (us : list QUrl) (acc : list string) :
  foldl (fun (input_paths : list string) url => (input_paths ++ [toLocalFile url])%list) acc us
  = (acc ++ map toLocalFile us)%list.
Proof.
  revert acc. induction us as [|u us IH]; intros acc; simpl.
  - by rewrite app_nil_r.
  - rewrite IH. by rewrite <- app_assoc.
Qed.

Lemma dropEvent_eq (event : QDropEvent) (settings : QSettings) (self : MainWindow.t) :
  MainWindow.label_musicFiles_dropEvent event settings self
  = (setValue "seperation/input_paths" (VStringList (map toLocalFile (urls event))) settings,
     MainWindow.setText "label_musicFiles"
       ("Total Music File/s: " +:+ pretty (length (urls event))) self).
Proof.
  unfold MainWindow.label_musicFiles_dropEvent.
  rewrite input_paths_loop; simpl. by rewrite length_map.
Qed.



End drop.



(** ** Window geometry *)

Lemma moveCenter_size (p : QPoint) (r : QRect) :
  rect_width (moveCenter p r) = rect_width r
  ∧ rect_height (moveCenter p r) = rect_height r.
Proof. unfold rect_width, rect_height, moveCenter; simpl. lia. Qed.

(** Moving the centre of a valid rectangle to a point of the first
    quadrant puts its centre there. *)
Lemma moveCenter_center (p : QPoint) (r : QRect) :
  rect_isValid r = true → 0 <= px p → 0 <= py p →
  rect_center (moveCenter p r) = p.
Proof.
  unfold rect_isValid, rect_center, moveCenter.
  intros Hv Hx Hy. apply andb_true_iff in Hv as [Hvx Hvy].
  apply bool_decide_eq_true in Hvx, Hvy.
  destruct p as [a b]; simpl in *. f_equal.
  - Z.quot_rem_to_equations. lia.
  - Z.quot_rem_to_equations. lia.
Qed.

(** The key of [key] in the only open group [ns]. *)
Lemma group_key (ns key : string) :
  ("" +:+ ns +:+ "/") +:+ key = ns +:+ "/" +:+ key.
Proof.
  change ("" +:+ ns +:+ "/") with (ns +:+ "/").
  induction ns as [|c ns IH]; [reflexivity|].
  change (String c ns +:+ "/") with (String c (ns +:+ "/")).
  change (String c (ns +:+ "/") +:+ key) with (String c ((ns +:+ "/") +:+ key)).
  rewrite IH. reflexivity.
Qed.

Lemma lookup_key_beginGroup (prefix k : string) (s : QSettings) :
  lookup_key (beginGroup prefix s) k = lookup_key s k.
Proof. reflexivity. Qed.

Lemma lookup_key_endGroup (k : string) (s : QSettings) :
  lookup_key (endGroup s) k = lookup_key s k.
Proof. reflexivity. Qed.

Section geometry.
Context `{Host}.

Lemma MainWindow_load_settings_eq (settings : QSettings) (self : MainWindow.t) :
  MainWindow.load_settings settings self
  = match value "geometry" (VRect (moveCenter screen_centre (MainWindow.geometry self)))
            (beginGroup "mainwindow" settings) with
    | VRect r => (settings, MainWindow.setGeometry r self, Returned)
    | VStringList _ => (settings, self, Raised TypeError)
    end.
Proof.
  unfold MainWindow.load_settings; simpl.
  rewrite endGroup_beginGroup. reflexivity.
Qed.

Lemma SettingsWindow_load_settings_eq (settings : QSettings) (self : SettingsWindow.t) :
  SettingsWindow.load_settings settings self
  = match value "geometry" (VRect (moveCenter screen_centre (SettingsWindow.geometry self)))
            (beginGroup "settingswindow" settings) with
    | VRect r => (settings, SettingsWindow.setGeometry r self, Returned)
    | VStringList _ => (settings, self, Raised TypeError)
    end.
Proof.
  unfold SettingsWindow.load_settings; simpl.
  rewrite endGroup_beginGroup. reflexivity.
Qed.

(** With no group open, [value "geometry"] inside the group [ns] reads
    the key [ns/geometry]. *)
Lemma value_in_group (ns : string) (d : QVariant) (s : QSettings) :
  group s = [] →
  value "geometry" d (beginGroup ns s)
  = match lookup_key s (ns +:+ "/geometry") with Some v => v | None => d end.
Proof.
  intros Hg. unfold value, actual_key; simpl. rewrite Hg; simpl.
  by rewrite lookup_key_beginGroup, group_key.
Qed.

(** What [save_settings] leaves under the key of the window. *)
Lemma lookup_after_save (ns : string) (G : QRect) (s : QSettings) :
  group s = [] →
  lookup_key (sync (endGroup (setValue "geometry" (VRect G) (beginGroup ns s))))
             (ns +:+ "/geometry")
  = Some (VRect G).
Proof.
  intros Hg. rewrite lookup_key_sync, lookup_key_endGroup.
  unfold lookup_key, setValue, actual_key; simpl. rewrite Hg; simpl.
  by rewrite group_key, lookup_insert_eq.
Qed.

(** C4: for the main and for the settings window and every geometry G,
    [save_settings] of a window with geometry G, followed in a new
    process (a settings object opened on what was synced) by
    [load_settings], returns normally and sets the geometry G. *)
Theorem geometry_round_trip (settings : QSettings) (G : QRect) :
  group settings = [] →
  (∀ w w' : MainWindow.t,
     MainWindow.geometry w = G →
     let reopened := QSettings_open (disk_of (MainWindow.save_settings settings w)) in
     MainWindow.load_settings reopened w'
     = (reopened, MainWindow.setGeometry G w', Returned))
  ∧ (∀ w w' : SettingsWindow.t,
     SettingsWindow.geometry w = G →
     let reopened := QSettings_open (disk_of (SettingsWindow.save_settings settings w)) in
     SettingsWindow.load_settings reopened w'
     = (reopened, SettingsWindow.setGeometry G w', Returned)).
Proof.
  intros Hg. split; intros w w' HG reopened; subst reopened.
  - rewrite MainWindow_load_settings_eq, value_in_group by reflexivity.
    unfold MainWindow.save_settings. rewrite lookup_key_reopen.
    rewrite lookup_key_endGroup.
    pose proof (lookup_after_save "mainwindow" G settings Hg) as Hs.
    rewrite lookup_key_sync, lookup_key_endGroup in Hs.
    rewrite HG. simpl in Hs |- *. by rewrite Hs.
  - rewrite SettingsWindow_load_settings_eq, value_in_group by reflexivity.
    unfold SettingsWindow.save_settings. rewrite lookup_key_reopen.
    rewrite lookup_key_endGroup.
    pose proof (lookup_after_save "settingswindow" G settings Hg) as Hs.
    rewrite lookup_key_sync, lookup_key_endGroup in Hs.
    rewrite HG. simpl in Hs |- *. by rewrite Hs.
Qed.

(** C5: for the main and for the settings window, when nothing is stored
    under the window's 'geometry' key, [load_settings] returns normally
    and gives the window its current rectangle moved so that its centre
    is (screen width / 2, screen height / 2): centred on the primary
    screen, at its current size. *)
Theorem default_geometry_is_centred (settings : QSettings) :
  group settings = [] → 0 <= screen_width → 0 <= screen_height →
  (∀ w : MainWindow.t,
     lookup_key settings "mainwindow/geometry" = None →
     rect_isValid (MainWindow.geometry w) = true →
     let loaded := MainWindow.load_settings settings w in
     loaded.2 = Returned
     ∧ rect_center (MainWindow.geometry loaded.1.2)
       = mkPoint (screen_width ÷ 2) (screen_height ÷ 2)
     ∧ rect_width (MainWindow.geometry loaded.1.2) = rect_width (MainWindow.geometry w)
     ∧ rect_height (MainWindow.geometry loaded.1.2) = rect_height (MainWindow.geometry w))
  ∧ (∀ w : SettingsWindow.t,
     lookup_key settings "settingswindow/geometry" = None →
     rect_isValid (SettingsWindow.geometry w) = true →
     let loaded := SettingsWindow.load_settings settings w in
     loaded.2 = Returned
     ∧ rect_center (SettingsWindow.geometry loaded.1.2)
       = mkPoint (screen_width ÷ 2) (screen_height ÷ 2)
     ∧ rect_width (SettingsWindow.geometry loaded.1.2) = rect_width (SettingsWindow.geometry w)
     ∧ rect_height (SettingsWindow.geometry loaded.1.2)
       = rect_height (SettingsWindow.geometry w)).
Proof.
  intros Hg Hw Hh.
  assert (0 <= px screen_centre ∧ 0 <= py screen_centre) as [Hx Hy].
  { unfold screen_centre; simpl. split; apply Z.quot_pos; lia. }
  split; intros w Hnone Hvalid loaded; subst loaded.
  - rewrite MainWindow_load_settings_eq, value_in_group by done.
    change ("mainwindow" +:+ "/geometry") with "mainwindow/geometry".
    rewrite Hnone; simpl.
    split; [done|]. split; [by apply moveCenter_center|]. apply moveCenter_size.
  - rewrite SettingsWindow_load_settings_eq, value_in_group by done.
    change ("settingswindow" +:+ "/geometry") with "settingswindow/geometry".
    rewrite Hnone; simpl.
    split; [done|]. split; [by apply moveCenter_center|]. apply moveCenter_size.
Qed.

(** C8: [load_settings] and [save_settings] of both windows close the
    group they open.  [load_settings] hands the settings object back as
    it found it, whether it returns or raises; [save_settings] leaves the
    same groups open as before, so that a key names the same entry after
    the call as before it, and it writes no entry but the window's
    'geometry'. *)
Theorem groups_are_closed (settings : QSettings) :
  (∀ w : MainWindow.t, (MainWindow.load_settings settings w).1.1 = settings)
  ∧ (∀ w : SettingsWindow.t, (SettingsWindow.load_settings settings w).1.1 = settings)
  ∧ (∀ w : MainWindow.t,
       let saved := MainWindow.save_settings settings w in
       group saved = group settings
       ∧ (∀ key, actual_key saved key = actual_key settings key)
       ∧ (∀ k, k ≠ actual_key (beginGroup "mainwindow" settings) "geometry" →
               lookup_key saved k = lookup_key settings k))
  ∧ (∀ w : SettingsWindow.t,
       let saved := SettingsWindow.save_settings settings w in
       group saved = group settings
       ∧ (∀ key, actual_key saved key = actual_key settings key)
       ∧ (∀ k, k ≠ actual_key (beginGroup "settingswindow" settings) "geometry" →
               lookup_key saved k = lookup_key settings k)).
Proof.
  split; [|split; [|split]].
  - intros w. rewrite MainWindow_load_settings_eq.
    by destruct (value _ _ _).
  - intros w. rewrite SettingsWindow_load_settings_eq.
    by destruct (value _ _ _).
  - intros w saved; subst saved. unfold MainWindow.save_settings.
    split; [done|]. split; [done|].
    intros k Hk. rewrite lookup_key_sync, lookup_key_endGroup.
    by rewrite lookup_key_setValue_ne.
  - intros w saved; subst saved. unfold SettingsWindow.save_settings.
    split; [done|]. split; [done|].
    intros k Hk. rewrite lookup_key_sync, lookup_key_endGroup.
    by rewrite lookup_key_setValue_ne.
Qed.

(** No method of the program that touches the settings leaves a group
    open: if none was open before, none is open afterwards. *)
Lemma no_group_left_open (settings : QSettings) :
  group settings = [] →
  (∀ event w, group (MainWindow.label_musicFiles_dropEvent event settings w).1 = [])
  ∧ (∀ event w, group (drag_and_drop event settings w).1 = [])
  ∧ (∀ w, group (MainWindow.load_settings settings w).1.1 = [])
  ∧ (∀ w, group (SettingsWindow.load_settings settings w).1.1 = [])
  ∧ (∀ event w, group (MainWindow.closeEvent event settings w).1 = [])
  ∧ (∀ event w, group (SettingsWindow.closeEvent event settings w).1 = [])
  ∧ (∀ ui, group (SettingsWindow.__init__ settings ui).1.1 = []).
Proof.
  intros Hg. repeat split.
  - done.
  - intros event w. unfold drag_and_drop. by destruct (isAccepted _).
  - intros w. rewrite MainWindow_load_settings_eq. by destruct (value _ _ _).
  - intros w. rewrite SettingsWindow_load_settings_eq. by destruct (value _ _ _).
  - done.
  - done.
  - intros ui. unfold SettingsWindow.__init__.
    destruct (SettingsWindow.setup_widgets_or_raise _ _) as [w [| |]]; [|done|done].
    rewrite SettingsWindow_load_settings_eq.
    destruct (value _ _ _); [|done].
    by destruct (SettingsWindow.menu_loadPage 0 _).
Qed.

End geometry.

(** ** Translation of the windows *)

Section translation.
Context `{Host}.

Lemma retranslateUi_snoc (context : string) (static : list (string * string))
    (ws : string * string) (pack : option string) (text : gmap string string) :
  retranslateUi context (static ++ [ws]) pack text
  = <[ws.1 := translate pack context ws.2]> (retranslateUi context static pack text).
Proof. unfold retranslateUi. by rewrite foldl_app. Qed.

(** A widget without static text keeps what it shows. *)
Lemma retranslateUi_other (context : string) (static : list (string * string))
    (pack : option string) (text : gmap string string) (widget : string) :
  widget ∉ static.*1 →
  retranslateUi context static pack text !! widget = text !! widget.
Proof.
  induction static as [|ws static IH] using rev_ind; intros Hnot; [done|].
  rewrite retranslateUi_snoc. rewrite fmap_app in Hnot. simpl in Hnot.
  apply not_elem_of_app in Hnot as [Hstatic Hws].
  apply not_elem_of_cons in Hws as [Hne _].
  rewrite lookup_insert_ne by congruence. by apply IH.
Qed.

(** What a widget with static text shows afterwards does not depend on
    what the window showed before. *)
Lemma retranslateUi_static (context : string) (static : list (string * string))
    (pack : option string) (text text' : gmap string string) (widget : string) :
  widget ∈ static.*1 →
  retranslateUi context static pack text !! widget
  = retranslateUi context static pack text' !! widget.
Proof.
  induction static as [|ws static IH] using rev_ind; intros Hin.
  { by apply elem_of_nil in Hin. }
  rewrite !retranslateUi_snoc.
  destruct (decide (ws.1 = widget)) as [->|Hne].
  - by rewrite !lookup_insert_eq.
  - rewrite !lookup_insert_ne by done. apply IH.
    rewrite fmap_app in Hin. apply elem_of_app in Hin as [Hin|Hin]; [done|].
    apply list_elem_of_singleton in Hin. congruence.
Qed.

Lemma retranslateUi_idempotent (context : string) (static : list (string * string))
    (pack : option string) (text : gmap string string) :
  retranslateUi context static pack (retranslateUi context static pack text)
  = retranslateUi context static pack text.
Proof.
  apply map_eq. intros widget.
  destruct (decide (widget ∈ static.*1)) as [Hin|Hnot].
  - by apply retranslateUi_static.
  - by rewrite retranslateUi_other.
Qed.

(** C7: for the main and for the settings window, under one installed
    translation, [update_translation] called twice in a row leaves the
    window exactly as one call does. *)
Theorem update_translation_idempotent (pack : option string) :
  (∀ w : MainWindow.t,
     MainWindow.update_translation pack (MainWindow.update_translation pack w)
     = MainWindow.update_translation pack w)
  ∧ (∀ w : SettingsWindow.t,
     SettingsWindow.update_translation pack (SettingsWindow.update_translation pack w)
     = SettingsWindow.update_translation pack w).
Proof.
  split; intros w.
  - unfold MainWindow.update_translation; simpl.
    by rewrite retranslateUi_idempotent.
  - unfold SettingsWindow.update_translation, SettingsWindow.with_text; simpl.
    by rewrite retranslateUi_idempotent.
Qed.

End translation.

(** ** Loading a language *)

Section language.
Context `{Host}.

(** The loop over the language buttons: every button of the frame ends
    up checked exactly when it has the name looked for, and nothing else
    in the window changes. *)
Lemma language_buttons_loop (name : string) (buttons : list string)
    (sw : SettingsWindow.t) :
  foldl (fun sw button =>
           if bool_decide (button = name)
           then SettingsWindow.setChecked button true sw
           else SettingsWindow.setChecked button false sw) sw buttons
  = SettingsWindow.with_checked
      (foldl (fun c button => <[button := bool_decide (button = name)]> c)
             (SettingsWindow.checked sw) buttons) sw.
Proof.
  revert sw. induction buttons as [|b buttons IH]; intros sw; simpl.
  - by destruct sw.
  - rewrite IH. by destruct (bool_decide (b = name)).
Qed.

Lemma checked_after_loop (name : string) (buttons : list string)
    (c : gmap string bool) (button : string) :
  button ∈ buttons →
  foldl (fun c button => <[button := bool_decide (button = name)]> c) c buttons !! button
  = Some (bool_decide (button = name)).
Proof.
  induction buttons as [|b buttons IH] using rev_ind; intros Hin.
  { by apply elem_of_nil in Hin. }
  rewrite foldl_app; simpl.
  destruct (decide (b = button)) as [->|Hne].
  - by rewrite lookup_insert_eq.
  - rewrite lookup_insert_ne by done. apply IH.
    apply elem_of_app in Hin as [Hin|Hin]; [done|].
    apply list_elem_of_singleton in Hin. congruence.
Qed.

(** [update_windows] on an application that has its windows. *)
Lemma update_windows_eq (language : Language) (app : CustomApplication) (ws : Windows) :
  windows app = Some ws →
  Translator.update_windows language app
  = with_windows
      (mkWindows
         (MainWindow.update_translation (active_pack app) (main ws))
         (SettingsWindow.with_checked
            (foldl (fun c button =>
                      <[button := bool_decide (button = Translator.button_name language)]> c)
                   (SettingsWindow.checked (settings_window ws))
                   (SettingsWindow.frame_languages (settings_window ws)))
            (SettingsWindow.update_translation (active_pack app) (settings_window ws))))
      app.
Proof.
  intros Hws. unfold Translator.update_windows. rewrite Hws.
  cbv zeta. unfold main, settings_window at 1 2.
  by rewrite (language_buttons_loop (Translator.button_name language)).
Qed.

Lemma active_pack_update_windows (language : Language) (app : CustomApplication) :
  active_pack (Translator.update_windows language app) = active_pack app.
Proof. unfold Translator.update_windows. by destruct (windows app). Qed.

Lemma load_language_English (k : nat) (app : CustomApplication) :
  Translator.load_language (S k) English app
  = Some (Translator.update_windows English (removeTranslator app)).
Proof. simpl. by rewrite bool_decide_eq_true_2. Qed.

Lemma load_language_missing (k : nat) (language : Language) (app : CustomApplication) :
  language ≠ English → isfile (Translator.translation_path language) = false →
  Translator.load_language (S k) language app = Translator.load_language k English app.
Proof.
  intros Hne Hfile. simpl.
  rewrite bool_decide_eq_false_2 by done. by rewrite Hfile.
Qed.

Lemma load_language_present (k : nat) (language : Language) (app : CustomApplication) :
  language ≠ English → isfile (Translator.translation_path language) = true →
  Translator.load_language (S k) language app
  = Some (Translator.update_windows language
            (installTranslator (translator_load (Translator.translation_path language) app))).
Proof.
  intros Hne Hfile. simpl.
  rewrite bool_decide_eq_false_2 by done. by rewrite Hfile.
Qed.

Lemma active_language_English :
  Translator.active_language English = English.
Proof. unfold Translator.active_language. by rewrite bool_decide_eq_true_2. Qed.

Lemma active_language_present (language : Language) :
  language ≠ English → isfile (Translator.translation_path language) = true →
  Translator.active_language language = language.
Proof.
  intros Hne Hfile. unfold Translator.active_language.
  rewrite bool_decide_eq_false_2 by done. by rewrite Hfile.
Qed.

Lemma active_language_missing (language : Language) :
  language ≠ English → isfile (Translator.translation_path language) = false →
  Translator.active_language language = English.
Proof.
  intros Hne Hfile. unfold Translator.active_language.
  rewrite bool_decide_eq_false_2 by done. by rewrite Hfile.
Qed.

(** What [load_language] returns, by the branch taken. *)
Lemma load_language_result (k : nat) (language : Language) (app : CustomApplication) :
  Translator.load_language (S (S k)) language app
  = Some
      (if bool_decide (Translator.active_language language = English)
       then Translator.update_windows English (removeTranslator app)
       else Translator.update_windows (Translator.active_language language)
              (installTranslator
                 (translator_load
                    (Translator.translation_path (Translator.active_language language)) app))).
Proof.
  destruct (decide (language = English)) as [->|Hne].
  - rewrite load_language_English, active_language_English.
    by rewrite bool_decide_eq_true_2.
  - destruct (isfile (Translator.translation_path language)) eqn:Hfile.
    + rewrite load_language_present, active_language_present by done.
      by rewrite bool_decide_eq_false_2.
    + rewrite load_language_missing, load_language_English by done.
      rewrite active_language_missing by done.
      by rewrite bool_decide_eq_true_2.
Qed.

(** C2: for every language, [load_language] returns (two levels of calls
    suffice), and when it does: the installed translation is that of the
    language now in force (none for English); every window of
    [app.windows] has been through [update_translation] under that
    translation; and each push button of the language frame is checked
    exactly when its object name is 'pushButton_' followed by the
    lowercased name of the language now in force.  Before [app.windows]
    exists there is no window to update. *)
Theorem load_language_updates_windows (k : nat) (language : Language)
    (app : CustomApplication) :
  ∃ app',
    Translator.load_language (S (S k)) language app = Some app'
    ∧ active_pack app'
      = (if bool_decide (Translator.active_language language = English) then None
         else Some (Translator.translation_path (Translator.active_language language)))
    ∧ (windows app = None → windows app' = None)
    ∧ (∀ ws, windows app = Some ws →
        ∃ ws', windows app' = Some ws'
          ∧ main ws' = MainWindow.update_translation (active_pack app') (main ws)
          ∧ SettingsWindow.with_checked (SettingsWindow.checked (settings_window ws))
              (settings_window ws')
            = SettingsWindow.update_translation (active_pack app') (settings_window ws)
          ∧ ∀ button,
              button ∈ SettingsWindow.frame_languages (settings_window ws) →
              SettingsWindow.checked (settings_window ws') !! button
              = Some (bool_decide
                        (button
                         = "pushButton_"
                           +:+ lower (languageToString (Translator.active_language language))))).
Proof.
  eexists. split; [apply load_language_result|].
  destruct (bool_decide (Translator.active_language language = English)) eqn:Hactive.
  - apply bool_decide_eq_true in Hactive. rewrite Hactive.
    split; [by rewrite active_pack_update_windows|].
    split.
    + intros Hnone. unfold Translator.update_windows; simpl. by rewrite Hnone.
    + intros ws Hws. rewrite active_pack_update_windows.
      rewrite (update_windows_eq English (removeTranslator app) ws) by done.
      eexists. split; [reflexivity|]. simpl.
      split; [done|]. split; [by destruct ws as [m []]|].
      intros button Hin. by apply checked_after_loop.
  - split; [by rewrite active_pack_update_windows|].
    split.
    + intros Hnone. unfold Translator.update_windows; simpl. by rewrite Hnone.
    + intros ws Hws. rewrite active_pack_update_windows.
      rewrite (update_windows_eq _ (installTranslator (translator_load _ app)) ws) by done.
      eexists. split; [reflexivity|]. simpl.
      split; [done|]. split; [by destruct ws as [m []]|].
      intros button Hin. by apply checked_after_loop.
Qed.

(** C3: for a language other than English whose translation file is
    missing, [load_language] leaves the application exactly as
    [load_language] of English does (translator, windows and language
    buttons included), and both return. *)
Theorem missing_pack_is_default (n m : nat) (language : Language)
    (app : CustomApplication) :
  language ≠ English → isfile (Translator.translation_path language) = false →
  (2 <= n)%nat → (1 <= m)%nat →
  Translator.load_language n language app = Translator.load_language m English app
  ∧ is_Some (Translator.load_language m English app).
Proof.
  intros Hne Hfile Hn Hm.
  destruct n as [|[|n]]; [lia|lia|]. destruct m as [|m]; [lia|].
  rewrite load_language_missing by done.
  rewrite !load_language_English. eauto.
Qed.

(** C9: [load_language] returns for every language, and a call nests at
    most one further call: two levels always suffice, one level suffices
    for English, which never calls again, and the second level is entered
    exactly for a language other than English without its file. *)
Theorem load_language_terminates (language : Language) (app : CustomApplication) :
  (∃ app', ∀ fuel, (2 <= fuel)%nat →
           Translator.load_language fuel language app = Some app')
  ∧ (∀ fuel, (1 <= fuel)%nat →
       Translator.load_language fuel English app
       = Some (Translator.update_windows English (removeTranslator app)))
  ∧ (Translator.load_language 1 language app = None
     ↔ language ≠ English ∧ isfile (Translator.translation_path language) = false).
Proof.
  split; [|split].
  - eexists. intros [|[|fuel]] Hfuel; [lia|lia|]. apply load_language_result.
  - intros [|fuel] Hfuel; [lia|]. apply load_language_English.
  - destruct (decide (language = English)) as [->|Hne].
    + rewrite load_language_English. split; [done|]. by intros [? _].
    + destruct (isfile (Translator.translation_path language)) eqn:Hfile.
      * rewrite load_language_present by done. split; [done|]. by intros [_ ?].
      * rewrite load_language_missing by done. simpl. done.
Qed.

End language.

(** ** The constructor of the settings window *)

(** The texts after the language buttons were cleared. *)
Lemma clear_buttons_state (buttons : list string) (self : SettingsWindow.t) :
  let cleared := foldl (fun self button => SettingsWindow.setText button "" self) self buttons in
  SettingsWindow.menu_group cleared = SettingsWindow.menu_group self
  ∧ SettingsWindow.frame_languages cleared = SettingsWindow.frame_languages self
  ∧ (∀ b, b ∈ buttons → SettingsWindow.text cleared !! b = Some "")
  ∧ (∀ b, b ∉ buttons → SettingsWindow.text cleared !! b = SettingsWindow.text self !! b).
Proof.
  induction buttons as [|button buttons IH] using rev_ind; simpl.
  { split; [done|]. split; [done|]. split; [|done].
    intros b Hb. by apply elem_of_nil in Hb. }
  rewrite foldl_app; simpl.
  destruct IH as (Hg & Hf & Hin & Hout).
  split; [done|]. split; [done|]. split.
  - intros b Hb. destruct (decide (button = b)) as [->|Hne].
    + by rewrite lookup_insert_eq.
    + rewrite lookup_insert_ne by done. apply Hin.
      apply elem_of_app in Hb as [Hb|Hb]; [done|].
      apply list_elem_of_singleton in Hb. congruence.
  - intros b Hb. apply not_elem_of_app in Hb as [Hb1 Hb2].
    apply not_elem_of_cons in Hb2 as [Hne _].
    rewrite lookup_insert_ne by congruence. by apply Hout.
Qed.

Lemma setup_flags_good (flags : string -> option string) (good rest : list string)
    (self : SettingsWindow.t) :
  Forall (has_flag flags) good →
  SettingsWindow.setup_flags flags (good ++ rest) self
  = SettingsWindow.setup_flags flags rest
      (foldl (fun self button => SettingsWindow.setText button "" self) self good).
Proof.
  revert self. induction good as [|button good IH]; intros self Hgood; [done|].
  apply Forall_cons in Hgood as [(language & img_path & Hl & Hf) Hgood].
  simpl. rewrite Hl, Hf. by apply IH.
Qed.

Lemma setup_flags_loaded (flags : string -> option string) (buttons : list string)
    (self : SettingsWindow.t) :
  (SettingsWindow.setup_flags flags buttons self).2 = FlagsLoaded →
  Forall (has_flag flags) buttons.
Proof.
  revert self. induction buttons as [|button buttons IH]; intros self Hloaded; [done|].
  simpl in Hloaded.
  destruct (SettingsWindow.flag_language button) as [language|] eqn:Hl; [|done].
  destruct (flags language) as [img_path|] eqn:Hf; [|done].
  apply Forall_cons. split; [by exists language, img_path|]. by eapply IH.
Qed.

(** The flag loop leaves the language frame as it is. *)
Lemma setup_flags_frame (flags : string -> option string) (buttons : list string)
    (self : SettingsWindow.t) :
  SettingsWindow.frame_languages (SettingsWindow.setup_flags flags buttons self).1
  = SettingsWindow.frame_languages self.
Proof.
  revert self. induction buttons as [|button buttons IH]; intros self; [done|].
  simpl. destruct (SettingsWindow.flag_language button) as [language|]; [|done].
  destruct (flags language) as [img_path|]; [|done].
  by rewrite IH.
Qed.

(** With a flag for every language button the loop raises nothing and
    leaves what the loop without its exceptions leaves. *)
Lemma setup_widgets_or_raise_flags (flags : string -> option string)
    (self : SettingsWindow.t) :
  Forall (has_flag flags) (SettingsWindow.frame_languages self) →
  SettingsWindow.setup_widgets_or_raise flags self
  = (SettingsWindow.setup_widgets self, FlagsLoaded).
Proof.
  intros Hall. unfold SettingsWindow.setup_widgets_or_raise.
  pose proof (setup_flags_good flags (SettingsWindow.frame_languages self) [] self Hall) as Hg.
  rewrite app_nil_r in Hg. by rewrite Hg.
Qed.

Lemma setup_widgets_or_raise_loaded (flags : string -> option string)
    (self : SettingsWindow.t) :
  (SettingsWindow.setup_widgets_or_raise flags self).2 = FlagsLoaded →
  Forall (has_flag flags) (SettingsWindow.frame_languages self).
Proof.
  unfold SettingsWindow.setup_widgets_or_raise. intros Hloaded.
  apply (setup_flags_loaded flags _ self).
  by destruct (SettingsWindow.setup_flags _ _ _) as [w []].
Qed.

Section constructor.
Context `{Host}.

(** [SettingsWindow.__init__] either finds a flag for every language
    button and goes on to the settings and the first page, or raises in
    the flag loop with the settings untouched. *)
Lemma settings_init_cases (settings : QSettings) (ui : SettingsWindow.t) :
  (Forall (has_flag images_flags) (SettingsWindow.frame_languages ui)
   ∧ SettingsWindow.__init__ settings ui
     = match SettingsWindow.load_settings settings (SettingsWindow.setup_widgets ui) with
       | (settings, self, Raised e) => (settings, self, Raised e)
       | (settings, self, Returned) =>
         let '(self, o) := SettingsWindow.menu_loadPage 0 self in
         (settings, self, o)
       end)
  ∨ (¬ Forall (has_flag images_flags) (SettingsWindow.frame_languages ui)
     ∧ (SettingsWindow.__init__ settings ui).1.1 = settings
     ∧ (SettingsWindow.__init__ settings ui).2 ≠ Returned
     ∧ SettingsWindow.frame_languages (SettingsWindow.__init__ settings ui).1.2
       = SettingsWindow.frame_languages ui).
Proof.
  unfold SettingsWindow.__init__.
  destruct (SettingsWindow.setup_widgets_or_raise images_flags ui) as [w o] eqn:Hsetup.
  assert (o = FlagsLoaded ∨ o ≠ FlagsLoaded) as [->|Hraised]
    by (destruct o; [by left|by right|by right]).
  - left.
    assert (Forall (has_flag images_flags) (SettingsWindow.frame_languages ui)) as Hall.
    { apply setup_widgets_or_raise_loaded. by rewrite Hsetup. }
    split; [done|].
    rewrite setup_widgets_or_raise_flags in Hsetup by done. by injection Hsetup as <-.
  - right. split.
    { intros Hall. rewrite setup_widgets_or_raise_flags in Hsetup by done.
      injection Hsetup as _ <-. done. }
    assert (SettingsWindow.frame_languages w = SettingsWindow.frame_languages ui) as Hframe.
    { pose proof (setup_flags_frame images_flags (SettingsWindow.frame_languages ui) ui)
        as Hloop.
      unfold SettingsWindow.setup_widgets_or_raise in Hsetup.
      destruct (SettingsWindow.setup_flags _ _ _) as [w1 o1].
      destruct o1; injection Hsetup as <- <-; done. }
    by destruct o.
Qed.

End constructor.

(** ** The menu of the settings window *)

Lemma setup_widgets_menu_group (w : SettingsWindow.t) :
  SettingsWindow.menu_group (SettingsWindow.setup_widgets w)
  = [(0, "radioButton_seperationSettings"); (1, "radioButton_shortcuts");
     (2, "radioButton_customization"); (3, "radioButton_preferences")].
Proof. reflexivity. Qed.

Lemma setup_widgets_pages (w : SettingsWindow.t) :
  SettingsWindow.pages (SettingsWindow.setup_widgets w) = SettingsWindow.pages w.
Proof.
  unfold SettingsWindow.setup_widgets; simpl.
  generalize (SettingsWindow.frame_languages w) as buttons. intros buttons.
  revert w. induction buttons as [|b buttons IH]; intros w; simpl; [done|].
  by rewrite IH.
Qed.

(** The window [menu_loadPage] leaves, whether it returns or raises,
    once the button of [index] is found. *)
Lemma menu_loadPage_state (index : Z) (w : SettingsWindow.t) (button : string) :
  group_button (SettingsWindow.menu_group w) index = Some button →
  let w' := (SettingsWindow.menu_loadPage index w).1 in
  SettingsWindow.currentIndex w'
  = stacked_setCurrentIndex (SettingsWindow.pages w) index (SettingsWindow.currentIndex w)
  ∧ SettingsWindow.checked w'
    = group_check (SettingsWindow.menu_group w) button (SettingsWindow.checked w)
  ∧ SettingsWindow.menu_group w' = SettingsWindow.menu_group w
  ∧ SettingsWindow.pages w' = SettingsWindow.pages w.
Proof.
  intros Hbutton. unfold SettingsWindow.menu_loadPage; simpl. rewrite Hbutton.
  by destruct (stacked_currentWidget _ _) as [[min_width|]|].
Qed.

Ltac lookup_inserted :=
  repeat first [rewrite lookup_insert_eq | rewrite lookup_insert_ne by discriminate].

(** The postcondition of [menu_loadPage] for the group [setup_widgets]
    builds and an index that has a page. *)
Lemma menu_loadPage_post (index : Z) (w : SettingsWindow.t) :
  0 <= index <= 3 →
  SettingsWindow.menu_group w = SettingsWindow.menu_group (SettingsWindow.setup_widgets w) →
  index < Z.of_nat (length (SettingsWindow.pages w)) →
  let w' := (SettingsWindow.menu_loadPage index w).1 in
  SettingsWindow.currentIndex w' = index
  ∧ (∃ button, group_button (SettingsWindow.menu_group w') index = Some button
               ∧ SettingsWindow.checked w' !! button = Some true)
  ∧ menu_matches_page w'
  ∧ SettingsWindow.menu_group w' = SettingsWindow.menu_group w
  ∧ SettingsWindow.pages w' = SettingsWindow.pages w.
Proof.
  intros Hindex Hgroup Hpage w'. rewrite setup_widgets_menu_group in Hgroup.
  assert (∃ button, group_button (SettingsWindow.menu_group w) index = Some button)
    as [button Hbutton].
  { rewrite Hgroup.
    assert (index = 0 ∨ index = 1 ∨ index = 2 ∨ index = 3) as [-> | [-> | [-> | ->]]] by lia;
      eexists; reflexivity. }
  destruct (menu_loadPage_state index w button Hbutton) as (Hcur & Hchecked & Hg & Hp).
  fold w' in Hcur, Hchecked, Hg, Hp.
  assert (SettingsWindow.currentIndex w' = index) as Hcur'.
  { rewrite Hcur. unfold stacked_setCurrentIndex.
    rewrite bool_decide_eq_true_2; [done|lia]. }
  split; [done|]. split; [|split; [|done]].
  - exists button. rewrite Hg. split; [done|].
    rewrite Hchecked. unfold group_check. by rewrite lookup_insert_eq.
  - intros id b Hin. rewrite Hcur', Hchecked. rewrite Hg, Hgroup in Hin.
    rewrite Hgroup in Hbutton |- *. unfold group_check; simpl.
    assert (index = 0 ∨ index = 1 ∨ index = 2 ∨ index = 3) as Hcases by lia.
    repeat (apply elem_of_cons in Hin as [Hin|Hin]); try by apply elem_of_nil in Hin.
    all: injection Hin as -> ->.
    all: destruct Hcases as [-> | [-> | [-> | ->]]]; injection Hbutton as <-.
    all: lookup_inserted; reflexivity.
Qed.

Section menu.
Context `{Host}.

(** A click on a button of the menu group loads the page of its id. *)
Lemma menu_click_post (btn : string) (w : SettingsWindow.t) :
  SettingsWindow.menu_group w = SettingsWindow.menu_group (SettingsWindow.setup_widgets w) →
  (4 <= length (SettingsWindow.pages w))%nat →
  btn ∈ (SettingsWindow.menu_group w).*2 →
  let w' := (SettingsWindow.menu_group_buttonClicked btn w).1 in
  menu_matches_page w'
  ∧ SettingsWindow.menu_group w' = SettingsWindow.menu_group w
  ∧ SettingsWindow.pages w' = SettingsWindow.pages w.
Proof.
  intros Hgroup Hpages Hbtn w'. subst w'.
  unfold SettingsWindow.menu_group_buttonClicked.
  set (w1 := SettingsWindow.with_checked _ w).
  assert (0 <= SettingsWindow.group_id (SettingsWindow.menu_group w) btn <= 3) as Hid.
  { rewrite setup_widgets_menu_group in Hgroup. rewrite Hgroup in Hbtn |- *.
    simpl in Hbtn.
    repeat (apply elem_of_cons in Hbtn as [->|Hbtn]); try by apply elem_of_nil in Hbtn.
    all: vm_compute; split; discriminate. }
  destruct (menu_loadPage_post (SettingsWindow.group_id (SettingsWindow.menu_group w) btn) w1)
    as (_ & _ & Hmatch & Hg & Hp); [done|done|simpl; lia|].
  done.
Qed.

Lemma menu_clicks_post (clicked : list string) (w : SettingsWindow.t) :
  SettingsWindow.menu_group w = SettingsWindow.menu_group (SettingsWindow.setup_widgets w) →
  (4 <= length (SettingsWindow.pages w))%nat →
  Forall (fun btn => btn ∈ (SettingsWindow.menu_group w).*2) clicked →
  menu_matches_page w →
  menu_matches_page (menu_clicks clicked w).
Proof.
  revert w. induction clicked as [|btn clicked IH]; intros w Hgroup Hpages Hall Hmatch;
    simpl; [done|].
  apply Forall_cons in Hall as [Hbtn Hall].
  destruct (menu_click_post btn w Hgroup Hpages Hbtn) as (Hm & Hg & Hp).
  apply IH.
  - by rewrite Hg.
  - by rewrite Hp.
  - by rewrite Hg.
  - done.
Qed.

(** The window a successful [__init__] hands over. *)
Lemma init_post (settings : QSettings) (ui : SettingsWindow.t) :
  (4 <= length (SettingsWindow.pages ui))%nat →
  (SettingsWindow.__init__ settings ui).2 = Returned →
  let w := (SettingsWindow.__init__ settings ui).1.2 in
  SettingsWindow.currentIndex w = 0
  ∧ menu_matches_page w
  ∧ SettingsWindow.menu_group w = SettingsWindow.menu_group (SettingsWindow.setup_widgets w)
  ∧ SettingsWindow.pages w = SettingsWindow.pages ui.
Proof.
  intros Hpages.
  destruct (settings_init_cases settings ui) as [[_ ->]|(_ & _ & Hraised & _)]; [|done].
  rewrite SettingsWindow_load_settings_eq.
  destruct (value _ _ _) as [r|l]; [|done].
  set (w1 := SettingsWindow.setGeometry r (SettingsWindow.setup_widgets ui)).
  destruct (SettingsWindow.menu_loadPage 0 w1) as [w' o] eqn:Hload.
  simpl. intros _.
  destruct (menu_loadPage_post 0 w1) as (Hcur & _ & Hmatch & Hg & Hp).
  { lia. }
  { reflexivity. }
  { replace (SettingsWindow.pages w1) with (SettingsWindow.pages ui); [lia|].
    symmetry. apply setup_widgets_pages. }
  rewrite Hload in Hcur, Hmatch, Hg, Hp; simpl in Hcur, Hmatch, Hg, Hp.
  split; [done|]. split; [done|]. split.
  - by rewrite Hg.
  - rewrite Hp. apply setup_widgets_pages.
Qed.

(** C10: after [menu_loadPage index] with [index] from 0 to 3, on a
    window whose menu group is the one [setup_widgets] builds and whose
    stacked widget has a page at [index], the current index of the
    stacked widget is [index] and the radio button registered under
    [index] is checked; and in every window reached from a successful
    [__init__] by clicks on menu buttons, the checked menu button is the
    one whose id is the index of the page shown. *)
Theorem menu_button_identifies_page :
  (∀ (index : Z) (w : SettingsWindow.t),
     0 <= index <= 3 →
     SettingsWindow.menu_group w
     = SettingsWindow.menu_group (SettingsWindow.setup_widgets w) →
     index < Z.of_nat (length (SettingsWindow.pages w)) →
     let w' := (SettingsWindow.menu_loadPage index w).1 in
     SettingsWindow.currentIndex w' = index
     ∧ (∃ button, group_button (SettingsWindow.menu_group w') index = Some button
                  ∧ SettingsWindow.checked w' !! button = Some true)
     ∧ menu_matches_page w')
  ∧ (∀ (settings : QSettings) (ui : SettingsWindow.t) (clicked : list string),
       (4 <= length (SettingsWindow.pages ui))%nat →
       (SettingsWindow.__init__ settings ui).2 = Returned →
       Forall (fun btn =>
                 btn ∈ (SettingsWindow.menu_group (SettingsWindow.setup_widgets ui)).*2)
              clicked →
       menu_matches_page (menu_clicks clicked (SettingsWindow.__init__ settings ui).1.2)).
Proof.
  split.
  - intros index w Hindex Hgroup Hpage w'.
    destruct (menu_loadPage_post index w Hindex Hgroup Hpage) as (Hcur & Hbutton & Hmatch & _).
    done.
  - intros settings ui clicked Hpages Hinit Hall.
    destruct (init_post settings ui Hpages Hinit) as (_ & Hmatch & Hg & Hp).
    apply menu_clicks_post; [done| by rewrite Hp | | done].
    by rewrite Hg.
Qed.

End menu.

(** ** The properties on the demonstration host *)

Lemma geometry_round_trip_witness :
  group (QSettings_open ∅) = []
  ∧ MainWindow.load_settings
      (QSettings_open
         (disk_of (MainWindow.save_settings (QSettings_open ∅)
                     (MainWindow.setGeometry (mkRect 40 30 839 629) demo_main))))
      demo_main
    = (QSettings_open
         (disk_of (MainWindow.save_settings (QSettings_open ∅)
                     (MainWindow.setGeometry (mkRect 40 30 839 629) demo_main))),
       MainWindow.setGeometry (mkRect 40 30 839 629) demo_main, Returned)
  ∧ SettingsWindow.load_settings
      (QSettings_open
         (disk_of (SettingsWindow.save_settings (QSettings_open ∅)
                     (SettingsWindow.setGeometry (mkRect 40 30 839 629) demo_settings_window))))
      demo_settings_window
    = (QSettings_open
         (disk_of (SettingsWindow.save_settings (QSettings_open ∅)
                     (SettingsWindow.setGeometry (mkRect 40 30 839 629) demo_settings_window))),
       SettingsWindow.setGeometry (mkRect 40 30 839 629) demo_settings_window, Returned).
Proof.
  split; [reflexivity|].
  split.
  - apply (proj1 (geometry_round_trip (QSettings_open ∅) (mkRect 40 30 839 629) eq_refl)).
    reflexivity.
  - apply (proj2 (geometry_round_trip (QSettings_open ∅) (mkRect 40 30 839 629) eq_refl)).
    reflexivity.
Defined.

Lemma default_geometry_is_centred_witness :
  (MainWindow.load_settings (QSettings_open ∅) demo_main).2 = Returned
  ∧ rect_center (MainWindow.geometry (MainWindow.load_settings (QSettings_open ∅) demo_main).1.2)
    = mkPoint 683 384
  ∧ rect_center
      (SettingsWindow.geometry
         (SettingsWindow.load_settings (QSettings_open ∅) demo_settings_window).1.2)
    = mkPoint 683 384.
Proof.
  assert (0 <= @screen_width demo_host) as Hw by (simpl; lia).
  assert (0 <= @screen_height demo_host) as Hh by (simpl; lia).
  pose proof (default_geometry_is_centred (QSettings_open ∅) eq_refl Hw Hh) as [Hm Hs].
  split; [|split].
  - apply (Hm demo_main); reflexivity.
  - apply (Hm demo_main); reflexivity.
  - apply (Hs demo_settings_window); reflexivity.
Defined.

Lemma missing_pack_is_default_witness :
  Translator.load_language 2 DJapanese demo_app
  = Translator.load_language 1 DEnglish demo_app
  ∧ is_Some (Translator.load_language 1 DEnglish demo_app).
Proof.
  apply (missing_pack_is_default (H:=demo_host) 2 1 DJapanese demo_app).
  - discriminate.
  - reflexivity.
  - lia.
  - lia.
Defined.

Lemma menu_button_identifies_page_witness :
  SettingsWindow.currentIndex
    (SettingsWindow.menu_loadPage 2 (SettingsWindow.setup_widgets demo_settings_window)).1 = 2
  ∧ menu_matches_page
      (menu_clicks ["radioButton_shortcuts"; "radioButton_preferences"]
         (SettingsWindow.__init__ (QSettings_open ∅) demo_settings_window).1.2).
Proof.
  split.
  - apply (proj1 (menu_button_identifies_page (H:=demo_host)) 2
             (SettingsWindow.setup_widgets demo_settings_window)).
    + lia.
    + reflexivity.
    + simpl. lia.
  - apply (proj2 (menu_button_identifies_page (H:=demo_host)) (QSettings_open ∅)
             demo_settings_window ["radioButton_shortcuts"; "radioButton_preferences"]).
    + simpl. lia.
    + reflexivity.
    + repeat constructor.
Defined.

(** [load_settings] on a geometry entry that is no rectangle raises, with
    the group closed and the window untouched. *)
Example load_settings_raises :
  MainWindow.load_settings demo_bad_settings demo_main
  = (demo_bad_settings, demo_main, Raised TypeError).
Proof. reflexivity. Qed.

(** A missing translation file: Japanese falls back to English, and the
    English button is the one checked. *)
Example load_language_japanese :
  ∃ app ws,
    Translator.load_language 2 DJapanese demo_app = Some app
    ∧ Translator.load_language 1 DJapanese demo_app = None
    ∧ active_pack app = None
    ∧ windows app = Some ws
    ∧ SettingsWindow.checked (settings_window ws) !! "pushButton_english" = Some true
    ∧ SettingsWindow.checked (settings_window ws) !! "pushButton_japanese" = Some false
    ∧ MainWindow.text (main ws) !! "label_musicFiles" = Some "Drop your music here".
Proof. do 2 eexists. repeat split; vm_compute; reflexivity. Qed.

(** A shipped translation file: German is installed and its button is
    the one checked. *)
Example load_language_german :
  ∃ app ws,
    Translator.load_language 1 DGerman demo_app = Some app
    ∧ active_pack app = Some "resources/localization/german.qm"
    ∧ windows app = Some ws
    ∧ SettingsWindow.checked (settings_window ws) !! "pushButton_german" = Some true
    ∧ SettingsWindow.checked (settings_window ws) !! "pushButton_english" = Some false
    ∧ MainWindow.text (main ws) !! "label_musicFiles"
      = Some "resources/localization/german.qm:Drop your music here".
Proof. do 2 eexists. repeat split; vm_compute; reflexivity. Qed.

(** * The rest of [app.py] *)

(** ** The flag loop of [SettingsWindow.setup_widgets] *)

(** A string without the separator is its own single piece. *)
Lemma split_on_absent (sep : ascii) (s : string) :
  has_char sep s = false → split_on sep s = [s].
Proof.
  induction s as [|c s IH]; intros Hno; [done|].
  simpl in Hno. apply orb_false_iff in Hno as [Hc Hs].
  apply bool_decide_eq_false in Hc.
  simpl. rewrite bool_decide_eq_false_2 by done. by rewrite IH.
Qed.

(** The first piece ends at the first separator. *)
Lemma split_on_first (sep : ascii) (a b : string) :
  has_char sep a = false →
  split_on sep (a +:+ String sep b) = a :: split_on sep b.
Proof.
  induction a as [|c a IH]; intros Hno.
  - change ("" +:+ String sep b) with (String sep b).
    simpl. by rewrite bool_decide_eq_true_2.
  - simpl in Hno. apply orb_false_iff in Hno as [Hc Ha].
    apply bool_decide_eq_false in Hc.
    change (String c a +:+ String sep b) with (String c (a +:+ String sep b)).
    simpl. rewrite bool_decide_eq_false_2 by done. by rewrite IH.
Qed.

Section flags.
Context `{Host}.

(** X1: the flag loop and [load_language] agree on the naming of the
    language buttons.  For a language whose lowercased name has no
    underscore, the button name [load_language] looks for,
    'pushButton_<name>', is split by the flag loop into the flag attribute
    <name>, the stem of the translation file; an object name without
    underscore has no second piece ([IndexError]). *)
Theorem flag_language_of_button_name (language : Language) (objectName : string) :
  has_char "_" (lower (languageToString language)) = false →
  has_char "_" objectName = false →
  SettingsWindow.flag_language (Translator.button_name language)
  = Some (lower (languageToString language))
  ∧ Translator.translation_path language
    = path_join localizationDir (lower (languageToString language) +:+ ".qm")
  ∧ SettingsWindow.flag_language objectName = None.
Proof.
  intros Hlang Hname. split; [|split; [done|]].
  - unfold SettingsWindow.flag_language, Translator.button_name.
    change ("pushButton_" +:+ lower (languageToString language))
      with ("pushButton" +:+ String "_" (lower (languageToString language))).
    rewrite split_on_first by done.
    by rewrite split_on_absent.
  - unfold SettingsWindow.flag_language. by rewrite split_on_absent.
Qed.


End flags.

(** X2: [setup_widgets] gets through its flag loop exactly when every
    push button of the language frame has an object name with a second
    piece between underscores and a flag image under that piece; it then
    leaves the window with every language button's text empty and the
    menu group built with the ids 0 to 3. *)
Theorem setup_widgets_returns (flags : string -> option string) (self : SettingsWindow.t) :
  ((SettingsWindow.setup_widgets_or_raise flags self).2 = FlagsLoaded
   ↔ Forall (has_flag flags) (SettingsWindow.frame_languages self))
  ∧ (Forall (has_flag flags) (SettingsWindow.frame_languages self) →
     (SettingsWindow.setup_widgets_or_raise flags self).1 = SettingsWindow.setup_widgets self
     ∧ (∀ b, b ∈ SettingsWindow.frame_languages self →
             SettingsWindow.text (SettingsWindow.setup_widgets_or_raise flags self).1 !! b
             = Some "")
     ∧ (SettingsWindow.menu_group (SettingsWindow.setup_widgets_or_raise flags self).1).*1
       = [0; 1; 2; 3]).
Proof.
  assert (Forall (has_flag flags) (SettingsWindow.frame_languages self) →
          SettingsWindow.setup_flags flags (SettingsWindow.frame_languages self) self
          = (foldl (fun self button => SettingsWindow.setText button "" self) self
               (SettingsWindow.frame_languages self), FlagsLoaded)) as Hgood.
  { intros Hall.
    pose proof (setup_flags_good flags (SettingsWindow.frame_languages self) [] self Hall) as Hg.
    by rewrite app_nil_r in Hg. }
  split; [split|].
  - unfold SettingsWindow.setup_widgets_or_raise. intros Hloaded.
    apply (setup_flags_loaded flags _ self).
    by destruct (SettingsWindow.setup_flags _ _ _) as [w []].
  - intros Hall. unfold SettingsWindow.setup_widgets_or_raise. by rewrite Hgood.
  - intros Hall. unfold SettingsWindow.setup_widgets_or_raise. rewrite Hgood by done.
    split; [done|]. split; [|done]. simpl.
    intros b Hb. by apply (clear_buttons_state (SettingsWindow.frame_languages self) self).
Qed.

(** X3: at the first language button without a flag, [setup_widgets]
    raises there ([IndexError] when the name has no second piece,
    [AttributeError] when the flags have no image for it); the menu group
    is not built, and the buttons after it keep their text. *)
Theorem setup_widgets_raises_at_first (flags : string -> option string)
    (self : SettingsWindow.t) (good rest : list string) (bad : string) :
  SettingsWindow.frame_languages self = (good ++ bad :: rest)%list →
  Forall (has_flag flags) good →
  ¬ has_flag flags bad →
  let raised := SettingsWindow.setup_widgets_or_raise flags self in
  raised.2 = match SettingsWindow.flag_language bad with
             | None => FlagIndexError bad
             | Some language => FlagAttributeError bad language
             end
  ∧ SettingsWindow.menu_group raised.1 = SettingsWindow.menu_group self
  ∧ (∀ b, b ∉ good → b ≠ bad →
          SettingsWindow.text raised.1 !! b = SettingsWindow.text self !! b).
Proof.
  intros Hframe Hgood Hbad raised. subst raised.
  unfold SettingsWindow.setup_widgets_or_raise.
  rewrite Hframe, setup_flags_good by done.
  destruct (clear_buttons_state good self) as (Hg & _ & _ & Hout).
  simpl. destruct (SettingsWindow.flag_language bad) as [language|] eqn:Hl.
  - destruct (flags language) as [img_path|] eqn:Hf.
    { destruct Hbad. by exists language, img_path. }
    simpl. split; [done|]. split; [done|].
    intros b Hb Hne. rewrite lookup_insert_ne by done. by apply Hout.
  - simpl. split; [done|]. split; [done|]. intros b Hb _. by apply Hout.
Qed.

(** ** Edge behaviour of [menu_loadPage] *)

Lemma menu_button_registered (index : Z) (w : SettingsWindow.t) :
  SettingsWindow.menu_group w = SettingsWindow.menu_group (SettingsWindow.setup_widgets w) →
  0 <= index <= 3 →
  ∃ button, group_button (SettingsWindow.menu_group w) index = Some button.
Proof.
  intros Hgroup Hindex. rewrite setup_widgets_menu_group in Hgroup. rewrite Hgroup.
  assert (index = 0 ∨ index = 1 ∨ index = 2 ∨ index = 3) as [-> | [-> | [-> | ->]]] by lia;
    eexists; reflexivity.
Qed.

(** X4: [menu_loadPage] with an index under which no menu button is
    registered (anything but 0 to 3) raises [AttributeError]; no button
    and no minimum width changes, but the page has already been switched
    when the stacked widget has a page at that index.  With at most four
    pages there is none, and the window is left as it was. *)
Theorem menu_loadPage_unregistered (index : Z) (w : SettingsWindow.t) :
  SettingsWindow.menu_group w = SettingsWindow.menu_group (SettingsWindow.setup_widgets w) →
  ¬ (0 <= index <= 3) →
  let raised := SettingsWindow.menu_loadPage index w in
  raised.2 = Raised AttributeError
  ∧ SettingsWindow.checked raised.1 = SettingsWindow.checked w
  ∧ SettingsWindow.minimumWidth raised.1 = SettingsWindow.minimumWidth w
  ∧ SettingsWindow.currentIndex raised.1
    = (if bool_decide (0 <= index < Z.of_nat (length (SettingsWindow.pages w)))
       then index else SettingsWindow.currentIndex w)
  ∧ ((length (SettingsWindow.pages w) <= 4)%nat → raised.1 = w).
Proof.
  intros Hgroup Hindex raised. subst raised.
  rewrite setup_widgets_menu_group in Hgroup.
  unfold SettingsWindow.menu_loadPage; simpl. rewrite Hgroup; simpl.
  rewrite !bool_decide_eq_false_2 by lia. simpl.
  repeat split; try done.
  intros Hpages. unfold SettingsWindow.setCurrentIndex, stacked_setCurrentIndex.
  rewrite bool_decide_eq_false_2 by lia. by destruct w.
Qed.

(** X5: [menu_loadPage] with a registered index returns when the page at
    that index has the property 'minimumFrameWidth', and the minimum width
    of the stacked widget is then that value where it lies from 0 to
    16777214, 0 for a negative value and for 16777215 itself (which Qt
    reads as no minimum), and 16777215 for a larger one; when the page
    lacks the property it raises [TypeError] with the minimum width
    unchanged, after the page was switched. *)
Theorem menu_loadPage_minimum_width (index : Z) (w : SettingsWindow.t) :
  SettingsWindow.menu_group w = SettingsWindow.menu_group (SettingsWindow.setup_widgets w) →
  0 <= index <= 3 →
  let loaded := SettingsWindow.menu_loadPage index w in
  (∀ min_width, SettingsWindow.pages w !! Z.to_nat index = Some (Some min_width) →
     loaded.2 = Returned
     ∧ 0 <= SettingsWindow.minimumWidth loaded.1 <= 16777215
     ∧ (0 <= min_width < 16777215 → SettingsWindow.minimumWidth loaded.1 = min_width)
     ∧ (min_width < 0 ∨ min_width = 16777215 → SettingsWindow.minimumWidth loaded.1 = 0)
     ∧ (16777215 < min_width → SettingsWindow.minimumWidth loaded.1 = 16777215))
  ∧ (SettingsWindow.pages w !! Z.to_nat index = Some None →
     loaded.2 = Raised TypeError
     ∧ SettingsWindow.minimumWidth loaded.1 = SettingsWindow.minimumWidth w
     ∧ SettingsWindow.currentIndex loaded.1 = index).
Proof.
  intros Hgroup Hindex loaded. subst loaded.
  destruct (menu_button_registered index w Hgroup Hindex) as [button Hbutton].
  assert (∀ page, SettingsWindow.pages w !! Z.to_nat index = Some page →
            SettingsWindow.menu_loadPage index w
            = match page with
              | None =>
                (SettingsWindow.with_checked
                   (group_check (SettingsWindow.menu_group w) button (SettingsWindow.checked w))
                   (SettingsWindow.setCurrentIndex index w), Raised TypeError)
              | Some min_width =>
                (SettingsWindow.setMinimumWidth min_width
                   (SettingsWindow.with_checked
                      (group_check (SettingsWindow.menu_group w) button
                         (SettingsWindow.checked w))
                      (SettingsWindow.setCurrentIndex index w)), Returned)
              end
            ∧ stacked_setCurrentIndex (SettingsWindow.pages w) index
                (SettingsWindow.currentIndex w) = index) as Hrun.
  { intros page Hpage.
    assert (stacked_setCurrentIndex (SettingsWindow.pages w) index
              (SettingsWindow.currentIndex w) = index) as Hcur.
    { unfold stacked_setCurrentIndex. apply lookup_lt_Some in Hpage.
      rewrite bool_decide_eq_true_2; [done|lia]. }
    split; [|done].
    unfold SettingsWindow.menu_loadPage; simpl. rewrite Hbutton, Hcur.
    unfold stacked_currentWidget. rewrite bool_decide_eq_true_2 by lia.
    rewrite Hpage. by destruct page. }
  split.
  - intros min_width Hpage. destruct (Hrun _ Hpage) as [-> _]. simpl.
    split; [done|]. case_bool_decide; repeat split; lia.
  - intros Hpage. destruct (Hrun _ Hpage) as [-> Hcur]. by simpl.
Qed.

(** ** Loading settings again, and dropping again *)

Lemma moveCenter_twice (p : QPoint) (r : QRect) :
  moveCenter p (moveCenter p r) = moveCenter p r.
Proof.
  unfold moveCenter; simpl.
  replace (px p - (x2 r - x1 r) ÷ 2 + (x2 r - x1 r) - (px p - (x2 r - x1 r) ÷ 2))
    with (x2 r - x1 r) by lia.
  replace (py p - (y2 r - y1 r) ÷ 2 + (y2 r - y1 r) - (py p - (y2 r - y1 r) ÷ 2))
    with (y2 r - y1 r) by lia.
  reflexivity.
Qed.

Section again.
Context `{Host}.

(** X6: [load_settings] of either window can be repeated: a second call
    on what the first one left gives the same settings, window and
    outcome, whether the geometry was stored, defaulted to the screen
    centre, or made the call raise. *)
Theorem load_settings_twice (settings : QSettings) :
  (∀ w : MainWindow.t,
     let once := MainWindow.load_settings settings w in
     MainWindow.load_settings once.1.1 once.1.2 = once)
  ∧ (∀ w : SettingsWindow.t,
     let once := SettingsWindow.load_settings settings w in
     SettingsWindow.load_settings once.1.1 once.1.2 = once).
Proof.
  split; intros w once; subst once.
  - pose proof (MainWindow_load_settings_eq settings w) as Hone. unfold value in Hone.
    destruct (lookup_key _ _) as [[r|l]|] eqn:Hkey; rewrite Hone; simpl;
      rewrite MainWindow_load_settings_eq; unfold value; rewrite Hkey; simpl.
    + done.
    + done.
    + by rewrite moveCenter_twice.
  - pose proof (SettingsWindow_load_settings_eq settings w) as Hone. unfold value in Hone.
    destruct (lookup_key _ _) as [[r|l]|] eqn:Hkey; rewrite Hone; simpl;
      rewrite SettingsWindow_load_settings_eq; unfold value; rewrite Hkey; simpl.
    + done.
    + done.
    + by rewrite moveCenter_twice.
Qed.

Lemma setValue_twice (key : string) (v v' : QVariant) (s : QSettings) :
  setValue key v' (setValue key v s) = setValue key v' s.
Proof.
  unfold setValue, actual_key; simpl. by rewrite insert_insert_eq.
Qed.

Lemma drag_and_drop_eq (event : QDropEvent) (settings : QSettings) (self : MainWindow.t) :
  drag_and_drop event settings self
  = match urls event with
    | [] => (settings, self)
    | _ :: _ => MainWindow.label_musicFiles_dropEvent event settings self
    end.
Proof.
  unfold drag_and_drop, MainWindow.label_musicFiles_dragEnterEvent.
  by destruct (urls event).
Qed.

(** X7: a drag released over the label replaces what an earlier one
    left: after a second drag with URLs, the stored paths and the label
    are those of the second alone; after a second drag without URLs they
    are still those of the first. *)
Theorem second_drop_replaces_first (first second : QDropEvent) (settings : QSettings)
    (self : MainWindow.t) :
  let once := drag_and_drop first settings self in
  drag_and_drop second once.1 once.2
  = match urls second with
    | [] => once
    | _ :: _ => drag_and_drop second settings self
    end.
Proof.
  intros once. subst once.
  rewrite (drag_and_drop_eq second).
  destruct (urls second) as [|u us] eqn:Hsecond.
  { by destruct (drag_and_drop first settings self). }
  rewrite (drag_and_drop_eq second settings self), Hsecond.
  rewrite !dropEvent_eq. f_equal.
  - rewrite (drag_and_drop_eq first settings self).
    destruct (urls first); [done|].
    rewrite dropEvent_eq; simpl. apply setValue_twice.
  - rewrite (drag_and_drop_eq first settings self).
    destruct (urls first); [done|].
    rewrite dropEvent_eq; simpl.
    unfold MainWindow.setText; simpl. by rewrite insert_insert_eq.
Qed.

End again.

(** ** The command log *)

Lemma write_to_command_registered (text : string) (sh : Shell) (ws : Windows) :
  windows (shell_app sh) = Some ws →
  MainWindow_write_to_command text sh
  = mkShell (shell_app sh) (command sh ++ [text]) true (main_visible sh) (settings_visible sh).
Proof. intros Hws. unfold MainWindow_write_to_command; simpl. by rewrite Hws. Qed.

(** X8: with the windows registered, texts written to the command line
    are appended in the order written and make the clear button visible;
    the clear button then empties the command line and hides itself, and
    neither touches the application object.  Every click on the export
    button writes one line. *)
Theorem command_log (texts : list string) (sh : Shell) (ws : Windows) :
  windows (shell_app sh) = Some ws →
  let written := foldl (fun sh text => MainWindow_write_to_command text sh) sh texts in
  let cleared := SettingsWindow_pushButton_clearCommand_clicked written in
  command written = (command sh ++ texts)%list
  ∧ (texts ≠ [] → clearCommand_visible written = true)
  ∧ shell_app written = shell_app sh
  ∧ cleared.2 = Returned
  ∧ command cleared.1 = []
  ∧ clearCommand_visible cleared.1 = false
  ∧ shell_app cleared.1 = shell_app sh
  ∧ command (pushButton_exportDirectory_clicked written).1
    = (command sh ++ texts ++ ["AYAAYAYA"])%list.
Proof.
  intros Hws written cleared.
  assert (command written = (command sh ++ texts)%list
          ∧ (texts ≠ [] → clearCommand_visible written = true)
          ∧ shell_app written = shell_app sh) as (Hc & Hv & Ha).
  { subst written cleared. induction texts as [|text texts IH] using rev_ind; simpl.
    - by rewrite app_nil_r.
    - rewrite foldl_app; simpl. destruct IH as (Hc & Hv & Ha).
      rewrite (write_to_command_registered text _ ws) by (by rewrite Ha).
      simpl. rewrite Hc, app_assoc. done. }
  subst cleared. unfold SettingsWindow_pushButton_clearCommand_clicked,
    pushButton_exportDirectory_clicked.
  rewrite Ha, Hws; simpl.
  rewrite (write_to_command_registered "AYAAYAYA" _ ws) by (by rewrite Ha).
  simpl. rewrite Hc, app_assoc. done.
Qed.

(** ** Starting the application *)

Section startup.
Context `{Host}.

Lemma settings_update_windows (language : Language) (app : CustomApplication) :
  settings (Translator.update_windows language app) = settings app.
Proof. unfold Translator.update_windows. by destruct (windows app). Qed.

Lemma load_language_call_eq (language : Language) (app : CustomApplication) :
  Translator.load_language_call language app
  = (if bool_decide (Translator.active_language language = English)
     then Translator.update_windows English (removeTranslator app)
     else Translator.update_windows (Translator.active_language language)
            (installTranslator
               (translator_load
                  (Translator.translation_path (Translator.active_language language)) app))).
Proof.
  unfold Translator.load_language_call. by rewrite (load_language_result 0).
Qed.

Lemma settings_load_language_call (language : Language) (app : CustomApplication) :
  settings (Translator.load_language_call language app) = settings app.
Proof.
  rewrite load_language_call_eq.
  destruct (bool_decide _); by rewrite settings_update_windows.
Qed.

Lemma lookup_key_open (disk : gmap string QVariant) (k : string) :
  lookup_key (QSettings_open disk) k = disk !! k.
Proof. unfold lookup_key, QSettings_open; simpl. by rewrite lookup_empty. Qed.

(** [Translator.__init__] before any window exists. *)
Lemma translator_init_fresh (s : QSettings) :
  group s = [] →
  Translator.__init__ (mkApp s None false None)
  = match lookup_key s "language" with
    | None => (mkApp s None false None, Returned)
    | Some _ => (mkApp s None false None, Raised TypeError)
    end.
Proof.
  intros Hg. unfold Translator.__init__, actual_key; simpl. rewrite Hg; simpl.
  change ("" +:+ "language") with "language".
  destruct (lookup_key s "language"); [done|].
  rewrite load_language_call_eq, active_language_English.
  by rewrite bool_decide_eq_true_2.
Qed.

(** What a save leaves under the other keys. *)
Lemma lookup_after_save_other (ns k : string) (G : QRect) (s : QSettings) :
  group s = [] → k ≠ ns +:+ "/geometry" →
  lookup_key (sync (endGroup (setValue "geometry" (VRect G) (beginGroup ns s)))) k
  = lookup_key s k.
Proof.
  intros Hg Hk. rewrite lookup_key_sync, lookup_key_endGroup.
  rewrite lookup_key_setValue_ne; [done|].
  unfold actual_key; simpl. rewrite Hg; simpl. by rewrite group_key.
Qed.

(** X9: the language chosen is never stored.  [load_language] leaves the
    settings as they are, so that, nothing being stored under 'language',
    a [Translator] constructed on what a later [save_settings] synced
    (the next start) returns with no translation installed. *)
Theorem language_is_not_stored (language : Language) (app : CustomApplication) :
  group (settings app) = [] →
  lookup_key (settings app) "language" = None →
  let app' := Translator.load_language_call language app in
  settings app' = settings app
  ∧ (∀ w : MainWindow.t,
       let next := mkApp (QSettings_open (disk_of (MainWindow.save_settings (settings app') w)))
                     None false None in
       Translator.__init__ next = (next, Returned) ∧ active_pack next = None)
  ∧ (∀ w : SettingsWindow.t,
       let next :=
         mkApp (QSettings_open (disk_of (SettingsWindow.save_settings (settings app') w)))
           None false None in
       Translator.__init__ next = (next, Returned) ∧ active_pack next = None).
Proof.
  intros Hg Hnone app'. subst app'. rewrite settings_load_language_call.
  split; [done|]. split; intros w next; subst next.
  - rewrite translator_init_fresh by done.
    unfold MainWindow.save_settings. rewrite lookup_key_reopen, lookup_key_endGroup.
    pose proof (lookup_after_save_other "mainwindow" "language"
                  (MainWindow.geometry w) (settings app) Hg) as Hother.
    rewrite lookup_key_sync, lookup_key_endGroup in Hother.
    rewrite Hother by done. by rewrite Hnone.
  - rewrite translator_init_fresh by done.
    unfold SettingsWindow.save_settings. rewrite lookup_key_reopen, lookup_key_endGroup.
    pose proof (lookup_after_save_other "settingswindow" "language"
                  (SettingsWindow.geometry w) (settings app) Hg) as Hother.
    rewrite lookup_key_sync, lookup_key_endGroup in Hother.
    rewrite Hother by done. by rewrite Hnone.
Qed.

End startup.

Section startup_outcome.
Context `{Host}.

Lemma main_init_open (disk : gmap string QVariant) (w : MainWindow.t) :
  MainWindow.__init__ (QSettings_open disk) w
  = match disk !! "mainwindow/geometry" with
    | Some (VStringList _) => (QSettings_open disk, w, Raised TypeError)
    | _ =>
      (QSettings_open disk,
       MainWindow.setGeometry
         (stored_geometry disk "mainwindow/geometry"
            (moveCenter screen_centre (MainWindow.geometry w))) w,
       Returned)
    end.
Proof.
  unfold MainWindow.__init__, MainWindow.setup_widgets.
  rewrite MainWindow_load_settings_eq, value_in_group by done.
  change ("mainwindow" +:+ "/geometry") with "mainwindow/geometry".
  rewrite lookup_key_open. unfold stored_geometry.
  by destruct (disk !! "mainwindow/geometry") as [[r|l]|].
Qed.

Lemma settings_load_open (disk : gmap string QVariant) (w : SettingsWindow.t) :
  SettingsWindow.load_settings (QSettings_open disk) w
  = match disk !! "settingswindow/geometry" with
    | Some (VStringList _) => (QSettings_open disk, w, Raised TypeError)
    | _ =>
      (QSettings_open disk,
       SettingsWindow.setGeometry
         (stored_geometry disk "settingswindow/geometry"
            (moveCenter screen_centre (SettingsWindow.geometry w))) w,
       Returned)
    end.
Proof.
  rewrite SettingsWindow_load_settings_eq, value_in_group by done.
  change ("settingswindow" +:+ "/geometry") with "settingswindow/geometry".
  rewrite lookup_key_open. unfold stored_geometry.
  by destruct (disk !! "settingswindow/geometry") as [[r|l]|].
Qed.

Lemma pages_after_setup (r : QRect) (w : SettingsWindow.t) :
  SettingsWindow.pages (SettingsWindow.setGeometry r (SettingsWindow.setup_widgets w))
  = SettingsWindow.pages w.
Proof. apply setup_widgets_pages. Qed.

(** The first page decides whether [menu_loadPage 0] returns. *)
Lemma menu_loadPage_first (w : SettingsWindow.t) :
  SettingsWindow.menu_group w = SettingsWindow.menu_group (SettingsWindow.setup_widgets w) →
  (SettingsWindow.menu_loadPage 0 w).2 = Returned
  ↔ ∃ min_width, SettingsWindow.pages w !! 0%nat = Some (Some min_width).
Proof.
  intros Hgroup. rewrite setup_widgets_menu_group in Hgroup.
  unfold SettingsWindow.menu_loadPage; simpl. rewrite Hgroup; simpl.
  unfold stacked_setCurrentIndex, stacked_currentWidget.
  destruct (SettingsWindow.pages w) as [|page pages] eqn:Hpages; simpl.
  - destruct (bool_decide (0 <= SettingsWindow.currentIndex w)); simpl.
    + rewrite ?lookup_nil. split; [done|]. by intros [? ?].
    + split; [done|]. by intros [? ?].
  - rewrite ?bool_decide_eq_true_2 by lia. simpl.
    destruct page as [min_width|]; simpl.
    + split; [by eexists|done].
    + split; [done|]. by intros [? ?].
Qed.

(** When [SettingsWindow.__init__] returns on settings just opened. *)
Lemma settings_init_returns (disk : gmap string QVariant) (ui : SettingsWindow.t) :
  (SettingsWindow.__init__ (QSettings_open disk) ui).2 = Returned
  ↔ Forall (has_flag images_flags) (SettingsWindow.frame_languages ui)
    ∧ (∀ l, disk !! "settingswindow/geometry" ≠ Some (VStringList l))
    ∧ (∃ min_width, SettingsWindow.pages ui !! 0%nat = Some (Some min_width)).
Proof.
  destruct (settings_init_cases (QSettings_open disk) ui)
    as [[Hall ->]|(Hno & _ & Hraised & _)].
  2:{ split; [done|]. by intros [? _]. }
  rewrite settings_load_open.
  destruct (disk !! "settingswindow/geometry") as [[r'|l']|] eqn:Hsettings.
  2:{ simpl. split; [done|]. intros (_ & Hs & _). by destruct (Hs l'). }
  all: match goal with
       | |- context [SettingsWindow.menu_loadPage 0 ?w] =>
         pose proof (menu_loadPage_first w eq_refl) as Hfirst;
         destruct (SettingsWindow.menu_loadPage 0 w) as [w' o] eqn:Hload
       end.
  all: rewrite pages_after_setup in Hfirst.
  all: simpl in Hfirst |- *; rewrite Hfirst.
  all: split; [by intros Hpage|by intros (_ & _ & Hpage)].
Qed.

(** X10: [CustomApplication.__init__] returns exactly when nothing is
    stored under 'language', neither geometry key holds a list, every
    push button of the language frame has a flag image under the second
    piece of its object name, and the first page of the stacked widget
    has its 'minimumFrameWidth'. *)
Theorem startup_returns_iff (disk : gmap string QVariant) (ui : Built) :
  (CustomApplication.__init__ disk ui).2 = Returned
  ↔ disk !! "language" = None
    ∧ (∀ l, disk !! "mainwindow/geometry" ≠ Some (VStringList l))
    ∧ Forall (has_flag images_flags) (SettingsWindow.frame_languages (built_settings ui))
    ∧ (∀ l, disk !! "settingswindow/geometry" ≠ Some (VStringList l))
    ∧ (∃ min_width,
         SettingsWindow.pages (built_settings ui) !! 0%nat = Some (Some min_width)).
Proof.
  unfold CustomApplication.__init__.
  rewrite translator_init_fresh by done. rewrite lookup_key_open.
  destruct (disk !! "language") as [v|] eqn:Hlang.
  { simpl. split; [done|]. by intros [? _]. }
  cbn [settings]. rewrite main_init_open.
  pose proof (settings_init_returns disk (built_settings ui)) as Hsettings.
  destruct (disk !! "mainwindow/geometry") as [[r|l]|] eqn:Hmain.
  2:{ simpl. split; [done|]. intros (_ & Hm & _). by destruct (Hm l). }
  all: destruct (SettingsWindow.__init__ (QSettings_open disk) (built_settings ui))
         as [[s sw] o].
  all: destruct o as [|e]; simpl in Hsettings |- *.
  all: split; [intros Ho|intros (_ & _ & Hrest)]; try done.
  all: try (split; [done|]; split; [by intros l|]; by apply Hsettings).
  all: by apply Hsettings in Hrest.
Qed.

End startup_outcome.

Section startup_state.
Context `{Host}.

Lemma menu_loadPage_keeps (index : Z) (w : SettingsWindow.t) :
  let w' := (SettingsWindow.menu_loadPage index w).1 in
  SettingsWindow.geometry w' = SettingsWindow.geometry w
  ∧ SettingsWindow.text w' = SettingsWindow.text w
  ∧ SettingsWindow.static_text w' = SettingsWindow.static_text w
  ∧ SettingsWindow.frame_languages w' = SettingsWindow.frame_languages w
  ∧ SettingsWindow.menu_group w' = SettingsWindow.menu_group w
  ∧ SettingsWindow.pages w' = SettingsWindow.pages w.
Proof.
  unfold SettingsWindow.menu_loadPage; simpl.
  destruct (group_button _ _) as [button|]; simpl; [|done].
  by destruct (stacked_currentWidget _ _) as [[min_width|]|].
Qed.

Lemma setup_widgets_geometry (w : SettingsWindow.t) :
  SettingsWindow.geometry (SettingsWindow.setup_widgets w) = SettingsWindow.geometry w.
Proof.
  unfold SettingsWindow.setup_widgets; simpl.
  generalize (SettingsWindow.frame_languages w) as buttons. intros buttons.
  revert w. induction buttons as [|b buttons IH]; intros w; simpl; [done|].
  by rewrite IH.
Qed.

(** [SettingsWindow.__init__] on settings just opened. *)
Lemma settings_init_open (disk : gmap string QVariant) (ui : SettingsWindow.t) :
  let started := SettingsWindow.__init__ (QSettings_open disk) ui in
  started.1.1 = QSettings_open disk
  ∧ (started.2 = Returned →
     SettingsWindow.geometry started.1.2
     = stored_geometry disk "settingswindow/geometry"
         (moveCenter screen_centre (SettingsWindow.geometry ui))
     ∧ SettingsWindow.currentIndex started.1.2 = 0).
Proof.
  destruct (settings_init_cases (QSettings_open disk) ui)
    as [[_ ->]|(_ & Hs & Hraised & _)]; [|done].
  rewrite settings_load_open.
  rewrite setup_widgets_geometry.
  destruct (disk !! "settingswindow/geometry") as [[r'|l']|]; [|done|].
  all: match goal with
       | |- context [SettingsWindow.menu_loadPage 0 ?w] =>
         destruct (menu_loadPage_keeps 0 w) as (Hgeo & _);
         pose proof (menu_loadPage_state 0 w "radioButton_seperationSettings" eq_refl)
           as (Hcur & _);
         pose proof (proj1 (menu_loadPage_first w eq_refl)) as Hfirst;
         destruct (SettingsWindow.menu_loadPage 0 w) as [w' o'] eqn:Hload
       end.
  all: simpl in Hgeo; simpl; split; [done|]; intros Ho.
  all: split; [by rewrite Hgeo|].
  all: destruct (Hfirst Ho) as [min_width Hpage].
  all: change ((w', o').1) with w' in Hcur.
  all: rewrite Hcur; unfold stacked_setCurrentIndex.
  all: rewrite pages_after_setup in Hpage |- *.
  all: apply lookup_lt_Some in Hpage.
  all: rewrite bool_decide_eq_true_2; [done|lia].
Qed.

(** The application a successful start hands to the event loop. *)
Lemma startup_success (disk : gmap string QVariant) (ui : Built) :
  (CustomApplication.__init__ disk ui).2 = Returned →
  ∃ sw,
    (CustomApplication.__init__ disk ui).1
    = mkShell
        (mkApp (QSettings_open disk) None false
           (Some (mkWindows
                    (MainWindow.setGeometry
                       (stored_geometry disk "mainwindow/geometry"
                          (moveCenter screen_centre (MainWindow.geometry (built_main ui))))
                       (built_main ui))
                    sw)))
        (built_command ui) (built_clearCommand_visible ui) true false
    ∧ SettingsWindow.__init__ (QSettings_open disk) (built_settings ui)
      = (QSettings_open disk, sw, Returned).
Proof.
  unfold CustomApplication.__init__.
  rewrite translator_init_fresh by done. rewrite lookup_key_open.
  destruct (disk !! "language") as [v|]; [done|].
  cbn [settings]. rewrite main_init_open.
  destruct (disk !! "mainwindow/geometry") as [[r|l]|]; [|done|].
  all: destruct (settings_init_open disk (built_settings ui)) as [Hs _].
  all: destruct (SettingsWindow.__init__ (QSettings_open disk) (built_settings ui))
         as [[s sw] o] eqn:Hinit.
  all: simpl in Hs; subst s.
  all: destruct o as [|e]; [|done].
  all: intros _; by exists sw.
Qed.

(** How a start fails: nothing written, no window registered. *)
Lemma startup_failure (disk : gmap string QVariant) (ui : Built) :
  (CustomApplication.__init__ disk ui).2 ≠ Returned →
  settings (shell_app (CustomApplication.__init__ disk ui).1) = QSettings_open disk
  ∧ windows (shell_app (CustomApplication.__init__ disk ui).1) = None.
Proof.
  unfold CustomApplication.__init__.
  rewrite translator_init_fresh by done. rewrite lookup_key_open.
  destruct (disk !! "language") as [v|]; [done|].
  cbn [settings]. rewrite main_init_open.
  destruct (disk !! "mainwindow/geometry") as [[r|l]|]; [|done|].
  all: destruct (settings_init_open disk (built_settings ui)) as [Hs _].
  all: destruct (SettingsWindow.__init__ (QSettings_open disk) (built_settings ui))
         as [[s sw] o] eqn:Hinit.
  all: simpl in Hs; subst s.
  all: by destruct o as [|e].
Qed.

(** X11: a start never writes to the settings, whatever its outcome, and
    the windows are registered exactly when it returns; it then shows the
    main window only, with no translation installed, the main window
    being the one [setupUi] built but for its geometry, and both
    geometries being the stored ones, or the window's own rectangle
    centred on the screen where none is stored. *)
Theorem startup_state (disk : gmap string QVariant) (ui : Built) :
  let started := CustomApplication.__init__ disk ui in
  settings (shell_app started.1) = QSettings_open disk
  ∧ (is_Some (windows (shell_app started.1)) ↔ started.2 = Returned)
  ∧ (started.2 = Returned →
     main_visible started.1 = true
     ∧ settings_visible started.1 = false
     ∧ active_pack (shell_app started.1) = None
     ∧ command started.1 = built_command ui
     ∧ ∃ ws, windows (shell_app started.1) = Some ws
       ∧ main ws
         = MainWindow.setGeometry
             (stored_geometry disk "mainwindow/geometry"
                (moveCenter screen_centre (MainWindow.geometry (built_main ui))))
             (built_main ui)
       ∧ SettingsWindow.geometry (settings_window ws)
         = stored_geometry disk "settingswindow/geometry"
             (moveCenter screen_centre (SettingsWindow.geometry (built_settings ui)))
       ∧ SettingsWindow.currentIndex (settings_window ws) = 0).
Proof.
  intros started. subst started.
  assert ((CustomApplication.__init__ disk ui).2 = Returned
          ∨ (CustomApplication.__init__ disk ui).2 ≠ Returned) as [Hreturned|Hraised].
  { destruct ((CustomApplication.__init__ disk ui).2); [by left|by right]. }
  - destruct (startup_success disk ui Hreturned) as (sw & Hshell & Hinit).
    destruct (settings_init_open disk (built_settings ui)) as [_ Hsw].
    rewrite Hinit in Hsw. destruct (Hsw eq_refl) as [Hgeo Hcur].
    rewrite Hshell; simpl.
    split; [done|]. split; [split; [done|by eexists]|].
    intros _. do 4 (split; [done|]).
    eexists. split; [reflexivity|]. by simpl.
  - destruct (startup_failure disk ui Hraised) as [Hs Hw]. rewrite Hs, Hw.
    split; [done|]. split; [|done]. split; [by intros [? ?]|done].
Qed.

End startup_state.

(** ** The event loop *)

(** The invariant of the settings window only looks at the menu. *)
Lemma settings_window_invariant_ext (sw sw' : SettingsWindow.t) :
  SettingsWindow.menu_group sw' = SettingsWindow.menu_group sw →
  SettingsWindow.pages sw' = SettingsWindow.pages sw →
  SettingsWindow.frame_languages sw' = SettingsWindow.frame_languages sw →
  SettingsWindow.currentIndex sw' = SettingsWindow.currentIndex sw →
  (∀ b, b ∈ (SettingsWindow.menu_group sw).*2 →
        SettingsWindow.checked sw' !! b = SettingsWindow.checked sw !! b) →
  settings_window_invariant sw → settings_window_invariant sw'.
Proof.
  intros Hg Hp Hf Hc Hchecked (Hmatch & Hgroup & Hpages & Hframe).
  unfold settings_window_invariant. rewrite Hg, Hp, Hf.
  split; [|done].
  intros id button Hin. rewrite Hg in Hin. rewrite Hc, Hchecked.
  - by apply Hmatch.
  - apply list_elem_of_fmap. by exists (id, button).
Qed.

Lemma group_button_in (buttons : list (Z * string)) (id : Z) (button : string) :
  group_button buttons id = Some button → button ∈ buttons.*2.
Proof.
  induction buttons as [|[i name] buttons IH]; simpl; [done|].
  destruct (bool_decide (i = id)).
  - intros [= ->]. apply list_elem_of_here.
  - intros Hrest. apply list_elem_of_further. by apply IH.
Qed.

Lemma unchecked_outside_loop (name : string) (buttons : list string)
    (c : gmap string bool) (b : string) :
  b ∉ buttons →
  foldl (fun c button => <[button := bool_decide (button = name)]> c) c buttons !! b
  = c !! b.
Proof.
  induction buttons as [|button buttons IH] using rev_ind; intros Hnot; [done|].
  rewrite foldl_app; simpl.
  apply not_elem_of_app in Hnot as [Hb Hlast].
  apply not_elem_of_cons in Hlast as [Hne _].
  rewrite lookup_insert_ne by congruence. by apply IH.
Qed.

Section event_loop.
Context `{Host}.
Variables German Japanese Filipino : Language.

(** The windows after a call of [load_language]. *)
Lemma windows_load_language_call (language : Language) (app : CustomApplication)
    (ws : Windows) :
  windows app = Some ws →
  ∃ pack,
    active_pack (Translator.load_language_call language app) = pack
    ∧ windows (Translator.load_language_call language app)
      = Some (mkWindows
                (MainWindow.update_translation pack (main ws))
                (SettingsWindow.with_checked
                   (foldl (fun c button =>
                             <[button := bool_decide
                                           (button
                                            = Translator.button_name
                                                (Translator.active_language language))]> c)
                          (SettingsWindow.checked (settings_window ws))
                          (SettingsWindow.frame_languages (settings_window ws)))
                   (SettingsWindow.update_translation pack (settings_window ws)))).
Proof.
  intros Hws. rewrite load_language_call_eq.
  destruct (bool_decide (Translator.active_language language = English)) eqn:Hactive.
  - apply bool_decide_eq_true in Hactive. rewrite Hactive.
    rewrite (update_windows_eq English (removeTranslator app) ws) by done.
    by eexists.
  - rewrite (update_windows_eq _ (installTranslator (translator_load _ app)) ws) by done.
    by eexists.
Qed.

Lemma connected_language (button : string) (language : Language) :
  connected (language_connections German Japanese Filipino) button = Some language →
  button ∈ ["pushButton_english"; "pushButton_german"; "pushButton_japanese";
            "pushButton_filipino"].
Proof.
  unfold language_connections; simpl.
  repeat (case_bool_decide; [subst; intros _; set_unfold; tauto|]).
  done.
Qed.

Lemma menu_click_frame (btn : string) (w : SettingsWindow.t) :
  SettingsWindow.frame_languages (SettingsWindow.menu_group_buttonClicked btn w).1
  = SettingsWindow.frame_languages w.
Proof.
  unfold SettingsWindow.menu_group_buttonClicked.
  destruct (menu_loadPage_keeps
              (SettingsWindow.group_id (SettingsWindow.menu_group w) btn)
              (SettingsWindow.with_checked
                 (group_check (SettingsWindow.menu_group w) btn (SettingsWindow.checked w)) w))
    as (_ & _ & _ & Hf & _).
  exact Hf.
Qed.

(** Every handler keeps the invariant of the running application. *)
Lemma handle_keeps_invariant (e : Event) (sh : Shell) :
  shell_invariant sh → shell_invariant (handle German Japanese Filipino e sh).
Proof.
  intros (ws & Hws & Hgroup & Hlang & Hsw & Hcommand).
  unfold handle. rewrite Hws.
  destruct e as [dragged| |id|button| | |r|r| |].
  - (* a drag released over the label *)
    rewrite drag_and_drop_eq; simpl.
    destruct dragged as [|u us].
    { eexists. simpl. split; [reflexivity|]. by simpl. }
    rewrite dropEvent_eq; simpl. eexists. simpl.
    split; [done|]. split; [done|]. split; [|done].
    rewrite lookup_key_setValue_ne; [done|].
    unfold actual_key. rewrite Hgroup. done.
  - (* the settings button *)
    unfold MainWindow_pushButton_settings_clicked. rewrite Hws. by exists ws.
  - (* a menu button *)
    destruct (group_button _ id) as [btn|] eqn:Hbtn.
    2:{ by exists ws. }
    destruct Hsw as (Hmatch & Hg & Hpages & Hframe).
    destruct (menu_click_post btn (settings_window ws) Hg Hpages
                (group_button_in _ _ _ Hbtn)) as (Hm' & Hg' & Hp').
    pose proof (menu_click_frame btn (settings_window ws)) as Hf'.
    eexists. simpl. split; [reflexivity|]. split; [done|]. split; [done|]. split; [|done].
    unfold settings_window_invariant. simpl. rewrite Hg', Hp', Hf'. done.
  - (* a language button *)
    destruct (connected _ button) as [language|] eqn:Hconnected.
    2:{ by exists ws. }
    apply connected_language in Hconnected.
    set (toggled := mkWindows (main ws) (toggle button (settings_window ws))).
    destruct (windows_load_language_call language (with_windows toggled (shell_app sh))
                toggled eq_refl) as (pack & _ & Hwindows).
    eexists. simpl. split; [exact Hwindows|].
    rewrite settings_load_language_call. simpl.
    split; [done|]. split; [done|]. split; [|done].
    apply (settings_window_invariant_ext (settings_window ws)); try done.
    intros b Hb. simpl.
    destruct Hsw as (_ & Hg & _ & Hframe).
    rewrite unchecked_outside_loop.
    + rewrite lookup_insert_ne; [done|].
      rewrite Hg, setup_widgets_menu_group in Hb. simpl in Hb.
      intros ->.
      repeat (apply elem_of_cons in Hb as [->|Hb]); try by apply elem_of_nil in Hb.
      all: repeat (apply elem_of_cons in Hconnected as [Hname|Hconnected];
                   [discriminate Hname|]).
      all: by apply elem_of_nil in Hconnected.
    + intros Hin. by apply (Hframe b).
  - (* the export button *)
    unfold pushButton_exportDirectory_clicked. rewrite Hws. simpl.
    rewrite (write_to_command_registered _ _ ws Hws). by exists ws.
  - (* the clear button *)
    unfold SettingsWindow_pushButton_clearCommand_clicked. rewrite Hws. by exists ws.
  - (* the main window moved *)
    eexists. simpl. split; [reflexivity|]. simpl. by do 3 (split; [done|]).
  - (* the settings window moved *)
    eexists. simpl. split; [done|]. split; [done|]. split; [done|]. split; [|done].
    by apply (settings_window_invariant_ext (settings_window ws)).
  - (* the main window closed *)
    simpl. exists ws. simpl. split; [done|]. split; [done|]. split; [|done].
    unfold MainWindow.save_settings.
    by rewrite (lookup_after_save_other "mainwindow" "language").
  - (* the settings window closed *)
    simpl. exists ws. simpl. split; [done|]. split; [done|]. split; [|done].
    unfold SettingsWindow.save_settings.
    by rewrite (lookup_after_save_other "settingswindow" "language").
Qed.

End event_loop.

Section running.
Context `{Host}.
Variables German Japanese Filipino : Language.

Lemma setup_widgets_frame (w : SettingsWindow.t) :
  SettingsWindow.frame_languages (SettingsWindow.setup_widgets w)
  = SettingsWindow.frame_languages w.
Proof.
  unfold SettingsWindow.setup_widgets; simpl.
  by destruct (clear_buttons_state (SettingsWindow.frame_languages w) w) as (_ & Hf & _).
Qed.

Lemma init_frame (settings : QSettings) (ui : SettingsWindow.t) :
  SettingsWindow.frame_languages (SettingsWindow.__init__ settings ui).1.2
  = SettingsWindow.frame_languages ui.
Proof.
  destruct (settings_init_cases settings ui) as [[_ ->]|(_ & _ & _ & Hframe)]; [|done].
  rewrite SettingsWindow_load_settings_eq.
  destruct (value _ _ _) as [r|l]; [|apply setup_widgets_frame].
  match goal with
  | |- context [SettingsWindow.menu_loadPage 0 ?w] =>
    destruct (menu_loadPage_keeps 0 w) as (_ & _ & _ & Hf & _);
    destruct (SettingsWindow.menu_loadPage 0 w) as [w' o]
  end.
  simpl in Hf |- *. rewrite Hf. apply setup_widgets_frame.
Qed.

Lemma startup_language (disk : gmap string QVariant) (ui : Built) :
  (CustomApplication.__init__ disk ui).2 = Returned → disk !! "language" = None.
Proof.
  unfold CustomApplication.__init__.
  rewrite translator_init_fresh by done. rewrite lookup_key_open.
  by destruct (disk !! "language").
Qed.

(** The invariant is there when the event loop starts. *)
Lemma startup_invariant (disk : gmap string QVariant) (ui : Built) :
  (CustomApplication.__init__ disk ui).2 = Returned →
  (4 <= length (SettingsWindow.pages (built_settings ui)))%nat →
  (∀ button, button ∈ SettingsWindow.frame_languages (built_settings ui) →
             button ∉ (SettingsWindow.menu_group
                         (SettingsWindow.setup_widgets (built_settings ui))).*2) →
  (built_command ui ≠ [] → built_clearCommand_visible ui = true) →
  shell_invariant (CustomApplication.__init__ disk ui).1.
Proof.
  intros Hreturned Hpages Hframe Hcommand.
  destruct (startup_success disk ui Hreturned) as (sw & Hshell & Hinit).
  pose proof (init_post (QSettings_open disk) (built_settings ui) Hpages) as Hpost.
  pose proof (init_frame (QSettings_open disk) (built_settings ui)) as Hf.
  rewrite Hinit in Hpost, Hf. simpl in Hpost, Hf.
  destruct (Hpost eq_refl) as (_ & Hmatch & Hg & Hp).
  rewrite Hshell. eexists. simpl. split; [reflexivity|]. simpl.
  split; [done|]. split.
  { rewrite lookup_key_open. by apply (startup_language disk ui). }
  split; [|done].
  unfold settings_window_invariant. rewrite Hp, Hf.
  split; [done|]. split; [done|]. split; [done|].
  intros button Hin. rewrite Hg. by apply Hframe.
Qed.

Lemma run_events_keep_invariant (events : list Event) (sh : Shell) :
  shell_invariant sh → shell_invariant (run_events German Japanese Filipino events sh).
Proof.
  unfold run_events. revert sh.
  induction events as [|e events IH]; intros sh Hinv; simpl; [done|].
  apply IH. by apply handle_keeps_invariant.
Qed.

(** X12: from a start that returned, whatever the user then does (drags,
    clicks on the settings, menu, language, export and clear buttons,
    moving and closing windows), both windows stay registered, no
    settings group is left open, nothing gets stored under 'language',
    the checked menu button is the one of the page shown, and a command
    line that is not empty has its clear button visible.  The stacked
    widget is taken to have its four pages, the language frame to hold no
    menu button, and the command line to start empty or clearable. *)
Theorem running_application_invariant (disk : gmap string QVariant) (ui : Built)
    (events : list Event) :
  (CustomApplication.__init__ disk ui).2 = Returned →
  (4 <= length (SettingsWindow.pages (built_settings ui)))%nat →
  (∀ button, button ∈ SettingsWindow.frame_languages (built_settings ui) →
             button ∉ (SettingsWindow.menu_group
                         (SettingsWindow.setup_widgets (built_settings ui))).*2) →
  (built_command ui ≠ [] → built_clearCommand_visible ui = true) →
  shell_invariant
    (run_events German Japanese Filipino events (CustomApplication.__init__ disk ui).1).
Proof.
  intros Hreturned Hpages Hframe Hcommand.
  apply run_events_keep_invariant. by apply startup_invariant.
Qed.

End running.

(** ** A session, closed and started again *)

Lemma disk_after_sync (s : QSettings) (k : string) :
  disk_of (sync s) !! k = lookup_key s k.
Proof. by rewrite <- lookup_key_open, lookup_key_reopen. Qed.

Lemma lookup_key_own (key : string) (v : QVariant) (s : QSettings) :
  group s = [] → lookup_key (setValue key v s) key = Some v.
Proof.
  intros Hg. unfold lookup_key, setValue, actual_key; simpl. rewrite Hg; simpl.
  change ("" +:+ key) with key. by rewrite lookup_insert_eq.
Qed.

Section session.
Context `{Host}.
Variables German Japanese Filipino : Language.

(** A start returns on settings that hold no language, no list under a
    geometry key, for language buttons with their flags and a first page
    with its minimum width. *)
Lemma startup_returns (disk : gmap string QVariant) (ui : Built) (r1 r2 : QRect)
    (min_width : Z) :
  disk !! "language" = None →
  disk !! "mainwindow/geometry" = Some (VRect r1) →
  disk !! "settingswindow/geometry" = Some (VRect r2) →
  Forall (has_flag images_flags) (SettingsWindow.frame_languages (built_settings ui)) →
  SettingsWindow.pages (built_settings ui) !! 0%nat = Some (Some min_width) →
  (CustomApplication.__init__ disk ui).2 = Returned.
Proof.
  intros Hlang Hmain Hsettings Hflags Hpage.
  assert ((SettingsWindow.__init__ (QSettings_open disk) (built_settings ui)).2 = Returned)
    as Hinit.
  { apply settings_init_returns. split; [done|]. split; [|by exists min_width].
    intros l. by rewrite Hsettings. }
  unfold CustomApplication.__init__.
  rewrite translator_init_fresh by done. rewrite lookup_key_open, Hlang.
  cbn [settings]. rewrite main_init_open, Hmain.
  destruct (SettingsWindow.__init__ (QSettings_open disk) (built_settings ui)) as [[s sw] o].
  simpl in Hinit. by subst o.
Qed.

(** What the two [save_settings] leave under each key. *)
Lemma main_save_lookup (s : QSettings) (w : MainWindow.t) (k : string) :
  group s = [] →
  group (MainWindow.save_settings s w) = []
  ∧ disk_of (MainWindow.save_settings s w) !! k
    = lookup_key (MainWindow.save_settings s w) k
  ∧ lookup_key (MainWindow.save_settings s w) "mainwindow/geometry"
    = Some (VRect (MainWindow.geometry w))
  ∧ (k ≠ "mainwindow/geometry" →
     lookup_key (MainWindow.save_settings s w) k = lookup_key s k).
Proof.
  intros Hg. unfold MainWindow.save_settings.
  split; [done|]. split; [by rewrite disk_after_sync, lookup_key_sync|].
  split; [by apply (lookup_after_save "mainwindow")|].
  intros Hk. by apply (lookup_after_save_other "mainwindow").
Qed.

Lemma settings_save_lookup (s : QSettings) (w : SettingsWindow.t) (k : string) :
  group s = [] →
  group (SettingsWindow.save_settings s w) = []
  ∧ disk_of (SettingsWindow.save_settings s w) !! k
    = lookup_key (SettingsWindow.save_settings s w) k
  ∧ lookup_key (SettingsWindow.save_settings s w) "settingswindow/geometry"
    = Some (VRect (SettingsWindow.geometry w))
  ∧ (k ≠ "settingswindow/geometry" →
     lookup_key (SettingsWindow.save_settings s w) k = lookup_key s k).
Proof.
  intros Hg. unfold SettingsWindow.save_settings.
  split; [done|]. split; [by rewrite disk_after_sync, lookup_key_sync|].
  split; [by apply (lookup_after_save "settingswindow")|].
  intros Hk. by apply (lookup_after_save_other "settingswindow").
Qed.

(** The settings after a drag, both windows moved and both closed. *)
Lemma closed_settings (sh : Shell) (ws : Windows) (dragged : list QUrl) (G1 G2 : QRect) :
  windows (shell_app sh) = Some ws →
  settings
    (shell_app
       (run_events German Japanese Filipino
          [DragDrop dragged; MoveMain G1; MoveSettings G2; CloseSettings; CloseMain] sh))
  = MainWindow.save_settings
      (SettingsWindow.save_settings
         (drag_and_drop (mkEvent _ dragged false) (settings (shell_app sh)) (main ws)).1
         (SettingsWindow.setGeometry G2 (settings_window ws)))
      (MainWindow.setGeometry G1
         (drag_and_drop (mkEvent _ dragged false) (settings (shell_app sh)) (main ws)).2).
Proof.
  intros Hws. destruct sh as [[s q i wsopt] c v mv sv]; simpl in Hws. subst wsopt.
  destruct ws as [m w]. unfold run_events.
  cbn [foldl shell_app settings main settings_window].
  destruct (drag_and_drop (mkEvent _ dragged false) s m) as [s1 m1] eqn:Hd.
  unfold handle.
  cbn -[drag_and_drop MainWindow.save_settings SettingsWindow.save_settings].
  rewrite Hd.
  cbn -[drag_and_drop MainWindow.save_settings SettingsWindow.save_settings].
  reflexivity.
Qed.

Lemma drag_nonempty (dragged : list QUrl) (s : QSettings) (m : MainWindow.t) :
  dragged ≠ [] →
  drag_and_drop (mkEvent _ dragged false) s m
  = (setValue "seperation/input_paths" (VStringList (map toLocalFile dragged)) s,
     MainWindow.setText "label_musicFiles"
       ("Total Music File/s: " +:+ pretty (length dragged)) m).
Proof.
  intros Hdragged. rewrite drag_and_drop_eq, dropEvent_eq. simpl.
  by destruct dragged.
Qed.

(** X13: what a session leaves for the next one.  After files were
    dropped, both windows moved and both closed, the synced settings hold
    the dropped paths and the two geometries; the next start on them,
    for language buttons that have their flags and a first page that has
    its minimum width, returns and gives each window the geometry it had
    when it was closed. *)
Theorem session_round_trip (sh : Shell) (ui : Built) (dragged : list QUrl)
    (G1 G2 : QRect) (min_width : Z) :
  shell_invariant sh →
  dragged ≠ [] →
  Forall (has_flag images_flags) (SettingsWindow.frame_languages (built_settings ui)) →
  SettingsWindow.pages (built_settings ui) !! 0%nat = Some (Some min_width) →
  let closed :=
    run_events German Japanese Filipino
      [DragDrop dragged; MoveMain G1; MoveSettings G2; CloseSettings; CloseMain] sh in
  let disk := disk_of (settings (shell_app closed)) in
  let restarted := CustomApplication.__init__ disk ui in
  disk !! "seperation/input_paths" = Some (VStringList (map toLocalFile dragged))
  ∧ disk !! "mainwindow/geometry" = Some (VRect G1)
  ∧ disk !! "settingswindow/geometry" = Some (VRect G2)
  ∧ restarted.2 = Returned
  ∧ ∃ ws, windows (shell_app restarted.1) = Some ws
          ∧ MainWindow.geometry (main ws) = G1
          ∧ SettingsWindow.geometry (settings_window ws) = G2.
Proof.
  intros (ws & Hws & Hgroup & Hlang & _ & _) Hdragged Hflags Hpage closed disk restarted.
  assert (disk !! "seperation/input_paths" = Some (VStringList (map toLocalFile dragged))
          ∧ disk !! "mainwindow/geometry" = Some (VRect G1)
          ∧ disk !! "settingswindow/geometry" = Some (VRect G2)
          ∧ disk !! "language" = None) as (Hpaths & Hmain & Hsettings & Hnone).
  { subst disk closed. rewrite (closed_settings sh ws) by done.
    rewrite drag_nonempty by done. cbn [fst snd].
    set (s1 := setValue "seperation/input_paths" _ (settings (shell_app sh))).
    set (w2 := SettingsWindow.setGeometry G2 (settings_window ws)).
    set (s2 := SettingsWindow.save_settings s1 w2).
    set (m2 := MainWindow.setGeometry G1 _).
    assert (group s1 = []) as Hg1 by done.
    destruct (settings_save_lookup s1 w2 "language" Hg1) as [Hg2 _]. fold s2 in Hg2.
    assert (∀ k, disk_of (MainWindow.save_settings s2 m2) !! k
                 = lookup_key (MainWindow.save_settings s2 m2) k) as Hdisk.
    { intros k. by destruct (main_save_lookup s2 m2 k Hg2) as (_ & Hk & _). }
    rewrite !Hdisk.
    split.
    { destruct (main_save_lookup s2 m2 "seperation/input_paths" Hg2)
        as (_ & _ & _ & ->); [|done].
      unfold s2.
      destruct (settings_save_lookup s1 w2 "seperation/input_paths" Hg1)
        as (_ & _ & _ & ->); [|done].
      by apply lookup_key_own. }
    split.
    { by destruct (main_save_lookup s2 m2 "mainwindow/geometry" Hg2) as (_ & _ & -> & _). }
    split.
    { destruct (main_save_lookup s2 m2 "settingswindow/geometry" Hg2)
        as (_ & _ & _ & ->); [|done].
      unfold s2.
      by destruct (settings_save_lookup s1 w2 "settingswindow/geometry" Hg1)
        as (_ & _ & -> & _). }
    destruct (main_save_lookup s2 m2 "language" Hg2) as (_ & _ & _ & ->); [|done].
    unfold s2.
    destruct (settings_save_lookup s1 w2 "language" Hg1) as (_ & _ & _ & ->); [|done].
    subst s1. rewrite lookup_key_setValue_ne; [done|].
    unfold actual_key. rewrite Hgroup. done. }
  split; [done|]. split; [done|]. split; [done|].
  assert (restarted.2 = Returned) as Hreturned.
  { by apply (startup_returns disk ui G1 G2 min_width). }
  split; [done|].
  destruct (startup_success disk ui Hreturned) as (sw & Hshell & Hinit).
  destruct (settings_init_open disk (built_settings ui)) as [_ Hsw].
  rewrite Hinit in Hsw. destruct (Hsw eq_refl) as [Hgeo _].
  subst restarted. rewrite Hshell. eexists. simpl. split; [reflexivity|].
  simpl. simpl in Hgeo. rewrite Hgeo. unfold stored_geometry.
  by rewrite Hmain, Hsettings.
Qed.

End session.

(** ** Switching languages *)

Section switching.
Context `{Host}.
Variables German Japanese Filipino : Language.

Lemma active_pack_call (language : Language) (app : CustomApplication) :
  active_pack (Translator.load_language_call language app)
  = (if bool_decide (Translator.active_language language = English) then None
     else Some (Translator.translation_path (Translator.active_language language))).
Proof.
  rewrite load_language_call_eq.
  destruct (bool_decide _); by rewrite active_pack_update_windows.
Qed.

(** A later translation of the static texts hides an earlier one. *)
Lemma retranslateUi_absorbs (context : string) (static : list (string * string))
    (pack pack' : option string) (text : gmap string string) :
  retranslateUi context static pack' (retranslateUi context static pack text)
  = retranslateUi context static pack' text.
Proof.
  apply map_eq. intros widget.
  destruct (decide (widget ∈ static.*1)) as [Hin|Hnot].
  - by apply retranslateUi_static.
  - by rewrite !retranslateUi_other.
Qed.

(** A later pass over the language buttons hides what was there. *)
Lemma loop_absorbs (name : string) (buttons : list string) (c c' : gmap string bool) :
  (∀ b, b ∉ buttons → c !! b = c' !! b) →
  foldl (fun c button => <[button := bool_decide (button = name)]> c) c buttons
  = foldl (fun c button => <[button := bool_decide (button = name)]> c) c' buttons.
Proof.
  intros Hout. apply map_eq. intros b.
  destruct (decide (b ∈ buttons)) as [Hin|Hnot].
  - by rewrite !checked_after_loop.
  - rewrite !unchecked_outside_loop by done. by apply Hout.
Qed.

(** X14: the last language loaded decides.  After [load_language] of one
    language and then of another, the windows (texts and checked
    language buttons), the installed translation and the settings are
    those [load_language] of the second alone gives. *)
Theorem last_language_wins (first second : Language) (app : CustomApplication)
    (ws : Windows) :
  windows app = Some ws →
  let twice :=
    Translator.load_language_call second (Translator.load_language_call first app) in
  let once := Translator.load_language_call second app in
  windows twice = windows once
  ∧ active_pack twice = active_pack once
  ∧ settings twice = settings once.
Proof.
  intros Hws twice once. subst twice once.
  split; [|split].
  - destruct (windows_load_language_call first app ws Hws) as (pack1 & _ & Hw1).
    destruct (windows_load_language_call second _ _ Hw1) as (pack2 & Hp2 & Hw2).
    destruct (windows_load_language_call second app ws Hws) as (pack2' & Hp2' & Hw2').
    rewrite Hw2, Hw2'. rewrite active_pack_call in Hp2, Hp2'. subst pack2 pack2'.
    f_equal. simpl. f_equal.
    + unfold MainWindow.update_translation; simpl. by rewrite retranslateUi_absorbs.
    + unfold SettingsWindow.update_translation, SettingsWindow.with_checked,
        SettingsWindow.with_text; simpl.
      rewrite retranslateUi_absorbs. f_equal.
      apply loop_absorbs. intros b Hb. by rewrite unchecked_outside_loop.
  - by rewrite !active_pack_call.
  - by rewrite !settings_load_language_call.
Qed.

(** X15: a click on a push button of the language frame leaves no trace
    of the toggle Qt does first: the application is as after
    [load_language] of the connected language alone, so that the button
    clicked ends checked exactly when its name is that of the language
    then in force, whatever it was before. *)
Theorem language_click_overrides_toggle (button : string) (language : Language)
    (sh : Shell) (ws : Windows) :
  windows (shell_app sh) = Some ws →
  connected (language_connections German Japanese Filipino) button = Some language →
  button ∈ SettingsWindow.frame_languages (settings_window ws) →
  handle German Japanese Filipino (LanguageButton button) sh
  = with_app (Translator.load_language_call language (shell_app sh)) sh
  ∧ ∃ ws', windows (Translator.load_language_call language (shell_app sh)) = Some ws'
     ∧ SettingsWindow.checked (settings_window ws') !! button
       = Some (bool_decide
                 (button = Translator.button_name (Translator.active_language language))).
Proof.
  intros Hws Hconnected Hin. split.
  - unfold handle. rewrite Hws, Hconnected. f_equal.
    rewrite !load_language_call_eq.
    set (toggled := mkWindows (main ws) (toggle button (settings_window ws))).
    assert (∀ l app', settings app' = settings (shell_app sh) →
              Translator.update_windows l
                (mkApp (settings app') (qm_file app') (installed app') (Some toggled))
              = Translator.update_windows l
                  (mkApp (settings app') (qm_file app') (installed app') (Some ws)))
      as Hsame.
    { intros l app' _.
      rewrite (update_windows_eq l _ toggled) by done.
      rewrite (update_windows_eq l _ ws) by done.
      unfold with_windows; simpl. do 3 f_equal.
      unfold SettingsWindow.update_translation, SettingsWindow.with_checked,
        SettingsWindow.with_text; simpl. f_equal.
      apply loop_absorbs. intros b Hb. rewrite lookup_insert_ne; [done|].
      by intros ->. }
    destruct (shell_app sh) as [s q i wsopt] eqn:Happ. simpl in Hws. subst wsopt.
    destruct (bool_decide _).
    + apply (Hsame English (mkApp s q false (Some ws))). done.
    + apply (Hsame _ (mkApp s (Some _) true (Some ws))). done.
  - destruct (windows_load_language_call language (shell_app sh) ws Hws)
      as (pack & _ & Hwindows).
    eexists. split; [exact Hwindows|]. simpl. by apply checked_after_loop.
Qed.

End switching.

(** ** The rest of [app.py] on the demonstration host *)

Lemma flag_language_of_button_name_witness :
  SettingsWindow.flag_language (Translator.button_name DGerman) = Some "german"
  ∧ Translator.translation_path DGerman = "resources/localization/german.qm"
  ∧ SettingsWindow.flag_language "pushButtonGerman" = None.
Proof.
  apply (flag_language_of_button_name (H:=demo_host) DGerman "pushButtonGerman").
  - reflexivity.
  - reflexivity.
Defined.

Lemma setup_widgets_raises_at_first_witness :
  let w := SettingsWindow.setText "pushButton_klingon" "Klingon"
             (SettingsWindow.mk (mkRect 0 0 799 599) ∅ [] ∅
                ["pushButton_english"; "pushButton_klingon"; "pushButton_german"]
                [] [Some 400] 0 0) in
  let raised := SettingsWindow.setup_widgets_or_raise demo_flags w in
  raised.2 = FlagAttributeError "pushButton_klingon" "klingon"
  ∧ SettingsWindow.menu_group raised.1 = []
  ∧ SettingsWindow.text raised.1 !! "pushButton_english" = Some ""
  ∧ SettingsWindow.text raised.1 !! "pushButton_klingon" = Some ""
  ∧ SettingsWindow.text raised.1 !! "pushButton_german" = None.
Proof.
  intros w raised.
  destruct (setup_widgets_raises_at_first demo_flags w ["pushButton_english"]
              ["pushButton_german"] "pushButton_klingon") as (Hout & Hgroup & Htext).
  - reflexivity.
  - repeat constructor. by exists "english", "resources/images/flags/english.png".
  - intros (language & img_path & Hl & Hf). vm_compute in Hl.
    injection Hl as <-. vm_compute in Hf. discriminate Hf.
  - split; [exact Hout|]. split; [exact Hgroup|].
    split; [reflexivity|]. split; [reflexivity|].
    unfold raised. rewrite (Htext "pushButton_german").
    + reflexivity.
    + intros Hin. apply list_elem_of_singleton in Hin. discriminate Hin.
    + discriminate.
Defined.

Lemma menu_loadPage_unregistered_witness :
  SettingsWindow.menu_loadPage (-1) (SettingsWindow.setup_widgets demo_settings_window)
  = (SettingsWindow.setup_widgets demo_settings_window, Raised AttributeError).
Proof.
  destruct (menu_loadPage_unregistered (-1) (SettingsWindow.setup_widgets demo_settings_window))
    as (Hout & _ & _ & _ & Hsame).
  - reflexivity.
  - lia.
  - rewrite (surjective_pairing (SettingsWindow.menu_loadPage _ _)).
    rewrite Hout, Hsame; [reflexivity|]. simpl. lia.
Defined.

Lemma menu_loadPage_minimum_width_witness :
  SettingsWindow.minimumWidth
    (SettingsWindow.menu_loadPage 2 (SettingsWindow.setup_widgets demo_settings_window)).1
  = 500.
Proof.
  destruct (menu_loadPage_minimum_width 2 (SettingsWindow.setup_widgets demo_settings_window))
    as [Hset _].
  - reflexivity.
  - lia.
  - destruct (Hset 500) as (_ & _ & Hwidth & _); [reflexivity|].
    apply Hwidth. lia.
Defined.

Lemma command_log_witness :
  let written :=
    foldl (fun sh text => MainWindow_write_to_command text sh) demo_shell
      ["loading"; "done"] in
  command written = ["loading"; "done"]
  ∧ clearCommand_visible written = true
  ∧ command (SettingsWindow_pushButton_clearCommand_clicked written).1 = []
  ∧ clearCommand_visible (SettingsWindow_pushButton_clearCommand_clicked written).1 = false.
Proof.
  intros written.
  destruct (windows (shell_app demo_shell)) as [ws|] eqn:Hws; [|discriminate Hws].
  destruct (command_log ["loading"; "done"] demo_shell ws Hws)
    as (Hc & Hv & _ & _ & Hcleared & Hhidden & _).
  split; [exact Hc|]. split; [by apply Hv|]. split; [exact Hcleared|exact Hhidden].
Defined.

Lemma language_is_not_stored_witness :
  settings (Translator.load_language_call DGerman demo_app) = settings demo_app
  ∧ active_pack (Translator.load_language_call DGerman demo_app)
    = Some "resources/localization/german.qm"
  ∧ Translator.__init__
      (mkApp (QSettings_open
                (disk_of (MainWindow.save_settings
                            (settings (Translator.load_language_call DGerman demo_app))
                            demo_main)))
         None false None)
    = (mkApp (QSettings_open
                (disk_of (MainWindow.save_settings
                            (settings (Translator.load_language_call DGerman demo_app))
                            demo_main)))
         None false None, Returned).
Proof.
  destruct (language_is_not_stored (H:=demo_host) DGerman demo_app eq_refl eq_refl)
    as (Hs & Hmain & _).
  split; [exact Hs|]. split; [reflexivity|]. apply (Hmain demo_main).
Defined.

(** On the demonstration host the language frame holds no menu button. *)
Lemma demo_frame_apart (button : string) :
  button ∈ SettingsWindow.frame_languages (built_settings demo_built) →
  button ∉ (SettingsWindow.menu_group
              (SettingsWindow.setup_widgets (built_settings demo_built))).*2.
Proof.
  simpl. intros Hin Hgroup.
  repeat (apply elem_of_cons in Hin as [->|Hin]); try by apply elem_of_nil in Hin.
  all: repeat (apply elem_of_cons in Hgroup as [Hname|Hgroup]; [discriminate Hname|]).
  all: by apply elem_of_nil in Hgroup.
Defined.

(** On the demonstration host every language button has its flag. *)
Lemma demo_frame_flags :
  Forall (has_flag (@images_flags demo_host))
    (SettingsWindow.frame_languages (built_settings demo_built)).
Proof.
  repeat apply Forall_cons_2; [..|apply Forall_nil_2].
  all: eexists _, _; split; reflexivity.
Defined.

Lemma running_application_invariant_witness :
  shell_invariant
    (run_events DGerman DJapanese DFilipino
       [DragDrop ["file:///music/a.mp3"]; SettingsButton; MenuButton 2;
        LanguageButton "pushButton_german"; ExportButton; CloseSettings]
       (CustomApplication.__init__ ∅ demo_built).1).
Proof.
  apply (running_application_invariant (H:=demo_host) DGerman DJapanese DFilipino ∅ demo_built).
  - reflexivity.
  - simpl. lia.
  - exact demo_frame_apart.
  - intros Hcommand. by destruct Hcommand.
Defined.

Lemma session_round_trip_witness :
  let closed :=
    run_events DGerman DJapanese DFilipino
      [DragDrop ["file:///music/a.mp3"; "file:///music/b.wav"];
       MoveMain (mkRect 40 30 839 629); MoveSettings (mkRect 10 20 409 319);
       CloseSettings; CloseMain] demo_shell in
  let disk := disk_of (settings (shell_app closed)) in
  disk !! "seperation/input_paths" = Some (VStringList ["/music/a.mp3"; "/music/b.wav"])
  ∧ disk !! "mainwindow/geometry" = Some (VRect (mkRect 40 30 839 629))
  ∧ disk !! "settingswindow/geometry" = Some (VRect (mkRect 10 20 409 319))
  ∧ (CustomApplication.__init__ disk demo_built).2 = Returned.
Proof.
  intros closed disk.
  assert (shell_invariant demo_shell) as Hinv.
  { apply (startup_invariant (H:=demo_host) ∅ demo_built).
    - reflexivity.
    - simpl. lia.
    - exact demo_frame_apart.
    - intros Hcommand. by destruct Hcommand. }
  destruct (session_round_trip (H:=demo_host) DGerman DJapanese DFilipino demo_shell demo_built
              ["file:///music/a.mp3"; "file:///music/b.wav"]
              (mkRect 40 30 839 629) (mkRect 10 20 409 319) 0 Hinv)
    as (Hpaths & Hmain & Hsettings & Hreturned & _).
  - discriminate.
  - exact demo_frame_flags.
  - reflexivity.
  - split; [exact Hpaths|]. split; [exact Hmain|]. split; [exact Hsettings|exact Hreturned].
Defined.

Lemma last_language_wins_witness :
  windows (Translator.load_language_call DEnglish
             (Translator.load_language_call DGerman demo_app))
  = windows (Translator.load_language_call DEnglish demo_app)
  ∧ active_pack (Translator.load_language_call DEnglish
                   (Translator.load_language_call DGerman demo_app))
    = None.
Proof.
  destruct (last_language_wins (H:=demo_host) DGerman DEnglish demo_app
              (mkWindows demo_main demo_settings_window) eq_refl) as (Hw & Hp & _).
  split; [exact Hw|]. rewrite Hp. reflexivity.
Defined.

Lemma language_click_overrides_toggle_witness :
  handle DGerman DJapanese DFilipino (LanguageButton "pushButton_german") demo_running
  = with_app (Translator.load_language_call DGerman demo_app) demo_running.
Proof.
  apply (language_click_overrides_toggle (H:=demo_host) DGerman DJapanese DFilipino
           "pushButton_german" DGerman demo_running
           (mkWindows demo_main demo_settings_window)).
  - reflexivity.
  - reflexivity.
  - apply list_elem_of_further, list_elem_of_here.
Defined.

(** A second click on the German button leaves it checked. *)
Example german_clicked_twice :
  (fun ws => (SettingsWindow.checked (settings_window ws) !! "pushButton_german",
              SettingsWindow.checked (settings_window ws) !! "pushButton_english"))
    <$> windows (shell_app
                   (run_events DGerman DJapanese DFilipino
                      [LanguageButton "pushButton_german"; LanguageButton "pushButton_german"]
                      demo_running))
  = Some (Some true, Some false).
Proof. vm_compute. reflexivity. Qed.

(** A start with a language button whose name has no underscore raises
    [IndexError] in the flag loop and registers no window; with a button
    whose language has no flag it raises [AttributeError]. *)
Example startup_without_flag :
  let frame (button : string) :=
    mkBuilt demo_main
      (SettingsWindow.mk (mkRect 0 0 799 599) ∅ [] ∅ ["pushButton_english"; button] []
         [Some 0; Some 400; Some 500; Some 600] 0 0) [] false in
  (CustomApplication.__init__ ∅ (frame "pushButtonKlingon")).2 = Raised IndexError
  ∧ windows (shell_app (CustomApplication.__init__ ∅ (frame "pushButtonKlingon")).1) = None
  ∧ (CustomApplication.__init__ ∅ (frame "pushButton_klingon")).2 = Raised AttributeError
  ∧ (CustomApplication.__init__ ∅ (frame "pushButton_german")).2 = Returned.
Proof. repeat split; vm_compute; reflexivity. Qed.

(** A start on settings whose main geometry is a list fails and
    registers no window. *)
Example startup_on_bad_geometry :
  (CustomApplication.__init__ {["mainwindow/geometry" := VStringList ["800x600"]]}
     demo_built).2 = Raised TypeError
  ∧ windows (shell_app
               (CustomApplication.__init__
                  {["mainwindow/geometry" := VStringList ["800x600"]]} demo_built).1)
    = None.
Proof. split; vm_compute; reflexivity. Qed.
